(** * Verification of [dashboard_caster.py]

    A shallow embedding of
    [custom_components/ha_continuous_casting_dashboard/dashboard_caster.py]
    (class [HaContinuousCastingDashboard]) and the properties of its
    reconciliation loop.

    The program talks to four parts of its environment: the wall clock
    ([datetime.now]), the external [catt] command ([asyncio] subprocesses),
    timed pauses ([asyncio.sleep]) and the logger.  They are modelled by a
    state and error monad over a [world] that holds a clock, a counter of
    spawned processes and the trace of observable events; what each spawned
    process does is given by an oracle. *)

From Stdlib Require Import Bool Arith NArith List String Ascii DecimalString Lia.
Import ListNotations.
Local Open Scope string_scope.
Local Open Scope list_scope.
Local Open Scope nat_scope.

(** String concatenation, as in the f-strings of the log messages. *)
Local Infix "+++" := String.append (at level 60, right associativity).

(* ================================================================== *)
(** * Python values and strings                                        *)
(* ================================================================== *)

(** The values that flow out of the status checks: [None], a [bool] or a
    [str]. *)
Inductive pyval : Type :=
| PyNone
| PyBool (b : bool)
| PyStr (s : string).

(** [bool(v)], the truth value tested by [if v:] and [not v]. *)
Definition truthy (v : pyval) : bool :=
  match v with
  | PyNone => false
  | PyBool b => b
  | PyStr s => negb (String.eqb s "")
  end.

(** [str(v)] in an f-string. *)
Definition py_str (v : pyval) : string :=
  match v with
  | PyNone => "None"
  | PyBool true => "True"
  | PyBool false => "False"
  | PyStr s => s
  end.

(** [v is None]. *)
Definition is_None (v : pyval) : bool :=
  match v with
  | PyNone => true
  | _ => false
  end.

(** [needle in hay] on strings: [needle] occurs as a substring. *)
Fixpoint str_in (needle hay : string) : bool :=
  prefix needle hay ||
  match hay with
  | EmptyString => false
  | String _ rest => str_in needle rest
  end.

(** [str(n)] in an f-string. *)
Definition str_of_nat (n : nat) : string :=
  NilZero.string_of_uint (Nat.to_uint n).

Definition str_of_N (n : N) : string :=
  NilZero.string_of_uint (N.to_uint n).

(** A [str] that the program hands to functions that look at its
    characters one by one ([str.upper], [strptime]) is the list of its
    code points. *)
Definition text : Type := list N.

(** The text of a literal made of ASCII characters. *)
Definition text_of_string (s : string) : text :=
  map N_of_ascii (list_ascii_of_string s).

Fixpoint text_eqb (a b : text) : bool :=
  match a, b with
  | [], [] => true
  | x :: a', y :: b' => N.eqb x y && text_eqb a' b'
  | _, _ => false
  end.

Fixpoint table_get (c : N) (table : list (N * list N)) : option (list N) :=
  match table with
  | [] => None
  | (k, v) :: rest => if N.eqb c k then Some v else table_get c rest
  end.

(** The characters [str.upper] changes, each with its upper-case form,
    which can be several characters long (Unicode 14.0, the character
    database of Python 3.11).  The forms made of ASCII letters alone are
    those of [a] to [z] and of ten other characters, among them the
    dotless i (305), the long s (383) and the sharp s (223). *)
Definition uppercase_table : list (N * list N) :=
  ([
   (97, [65]); (98, [66]); (99, [67]); (100, [68]); (101, [69]); (102, [70]);
   (103, [71]); (104, [72]); (105, [73]); (106, [74]); (107, [75]);
   (108, [76]); (109, [77]); (110, [78]); (111, [79]); (112, [80]);
   (113, [81]); (114, [82]); (115, [83]); (116, [84]); (117, [85]);
   (118, [86]); (119, [87]); (120, [88]); (121, [89]); (122, [90]);
   (181, [924]); (223, [83; 83]); (224, [192]); (225, [193]); (226, [194]);
   (227, [195]); (228, [196]); (229, [197]); (230, [198]); (231, [199]);
   (232, [200]); (233, [201]); (234, [202]); (235, [203]); (236, [204]);
   (237, [205]); (238, [206]); (239, [207]); (240, [208]); (241, [209]);
   (242, [210]); (243, [211]); (244, [212]); (245, [213]); (246, [214]);
   (248, [216]); (249, [217]); (250, [218]); (251, [219]); (252, [220]);
   (253, [221]); (254, [222]); (255, [376]); (257, [256]); (259, [258]);
   (261, [260]); (263, [262]); (265, [264]); (267, [266]); (269, [268]);
   (271, [270]); (273, [272]); (275, [274]); (277, [276]); (279, [278]);
   (281, [280]); (283, [282]); (285, [284]); (287, [286]); (289, [288]);
   (291, [290]); (293, [292]); (295, [294]); (297, [296]); (299, [298]);
   (301, [300]); (303, [302]); (305, [73]); (307, [306]); (309, [308]);
   (311, [310]); (314, [313]); (316, [315]); (318, [317]); (320, [319]);
   (322, [321]); (324, [323]); (326, [325]); (328, [327]); (329, [700; 78]);
   (331, [330]); (333, [332]); (335, [334]); (337, [336]); (339, [338]);
   (341, [340]); (343, [342]); (345, [344]); (347, [346]); (349, [348]);
   (351, [350]); (353, [352]); (355, [354]); (357, [356]); (359, [358]);
   (361, [360]); (363, [362]); (365, [364]); (367, [366]); (369, [368]);
   (371, [370]); (373, [372]); (375, [374]); (378, [377]); (380, [379]);
   (382, [381]); (383, [83]); (384, [579]); (387, [386]); (389, [388]);
   (392, [391]); (396, [395]); (402, [401]); (405, [502]); (409, [408]);
   (410, [573]); (414, [544]); (417, [416]); (419, [418]); (421, [420]);
   (424, [423]); (429, [428]); (432, [431]); (436, [435]); (438, [437]);
   (441, [440]); (445, [444]); (447, [503]); (453, [452]); (454, [452]);
   (456, [455]); (457, [455]); (459, [458]); (460, [458]); (462, [461]);
   (464, [463]); (466, [465]); (468, [467]); (470, [469]); (472, [471]);
   (474, [473]); (476, [475]); (477, [398]); (479, [478]); (481, [480]);
   (483, [482]); (485, [484]); (487, [486]); (489, [488]); (491, [490]);
   (493, [492]); (495, [494]); (496, [74; 780]); (498, [497]); (499, [497]);
   (501, [500]); (505, [504]); (507, [506]); (509, [508]); (511, [510]);
   (513, [512]); (515, [514]); (517, [516]); (519, [518]); (521, [520]);
   (523, [522]); (525, [524]); (527, [526]); (529, [528]); (531, [530]);
   (533, [532]); (535, [534]); (537, [536]); (539, [538]); (541, [540]);
   (543, [542]); (547, [546]); (549, [548]); (551, [550]); (553, [552]);
   (555, [554]); (557, [556]); (559, [558]); (561, [560]); (563, [562]);
   (572, [571]); (575, [11390]); (576, [11391]); (578, [577]); (583, [582]);
   (585, [584]); (587, [586]); (589, [588]); (591, [590]); (592, [11375]);
   (593, [11373]); (594, [11376]); (595, [385]); (596, [390]); (598, [393]);
   (599, [394]); (601, [399]); (603, [400]); (604, [42923]); (608, [403]);
   (609, [42924]); (611, [404]); (613, [42893]); (614, [42922]);
   (616, [407]); (617, [406]); (618, [42926]); (619, [11362]);
   (620, [42925]); (623, [412]); (625, [11374]); (626, [413]); (629, [415]);
   (637, [11364]); (640, [422]); (642, [42949]); (643, [425]);
   (647, [42929]); (648, [430]); (649, [580]); (650, [433]); (651, [434]);
   (652, [581]); (658, [439]); (669, [42930]); (670, [42928]); (837, [921]);
   (881, [880]); (883, [882]); (887, [886]); (891, [1021]); (892, [1022]);
   (893, [1023]); (912, [921; 776; 769]); (940, [902]); (941, [904]);
   (942, [905]); (943, [906]); (944, [933; 776; 769]); (945, [913]);
   (946, [914]); (947, [915]); (948, [916]); (949, [917]); (950, [918]);
   (951, [919]); (952, [920]); (953, [921]); (954, [922]); (955, [923]);
   (956, [924]); (957, [925]); (958, [926]); (959, [927]); (960, [928]);
   (961, [929]); (962, [931]); (963, [931]); (964, [932]); (965, [933]);
   (966, [934]); (967, [935]); (968, [936]); (969, [937]); (970, [938]);
   (971, [939]); (972, [908]); (973, [910]); (974, [911]); (976, [914]);
   (977, [920]); (981, [934]); (982, [928]); (983, [975]); (985, [984]);
   (987, [986]); (989, [988]); (991, [990]); (993, [992]); (995, [994]);
   (997, [996]); (999, [998]); (1001, [1000]); (1003, [1002]);
   (1005, [1004]); (1007, [1006]); (1008, [922]); (1009, [929]);
   (1010, [1017]); (1011, [895]); (1013, [917]); (1016, [1015]);
   (1019, [1018]); (1072, [1040]); (1073, [1041]); (1074, [1042]);
   (1075, [1043]); (1076, [1044]); (1077, [1045]); (1078, [1046]);
   (1079, [1047]); (1080, [1048]); (1081, [1049]); (1082, [1050]);
   (1083, [1051]); (1084, [1052]); (1085, [1053]); (1086, [1054]);
   (1087, [1055]); (1088, [1056]); (1089, [1057]); (1090, [1058]);
   (1091, [1059]); (1092, [1060]); (1093, [1061]); (1094, [1062]);
   (1095, [1063]); (1096, [1064]); (1097, [1065]); (1098, [1066]);
   (1099, [1067]); (1100, [1068]); (1101, [1069]); (1102, [1070]);
   (1103, [1071]); (1104, [1024]); (1105, [1025]); (1106, [1026]);
   (1107, [1027]); (1108, [1028]); (1109, [1029]); (1110, [1030]);
   (1111, [1031]); (1112, [1032]); (1113, [1033]); (1114, [1034]);
   (1115, [1035]); (1116, [1036]); (1117, [1037]); (1118, [1038]);
   (1119, [1039]); (1121, [1120]); (1123, [1122]); (1125, [1124]);
   (1127, [1126]); (1129, [1128]); (1131, [1130]); (1133, [1132]);
   (1135, [1134]); (1137, [1136]); (1139, [1138]); (1141, [1140]);
   (1143, [1142]); (1145, [1144]); (1147, [1146]); (1149, [1148]);
   (1151, [1150]); (1153, [1152]); (1163, [1162]); (1165, [1164]);
   (1167, [1166]); (1169, [1168]); (1171, [1170]); (1173, [1172]);
   (1175, [1174]); (1177, [1176]); (1179, [1178]); (1181, [1180]);
   (1183, [1182]); (1185, [1184]); (1187, [1186]); (1189, [1188]);
   (1191, [1190]); (1193, [1192]); (1195, [1194]); (1197, [1196]);
   (1199, [1198]); (1201, [1200]); (1203, [1202]); (1205, [1204]);
   (1207, [1206]); (1209, [1208]); (1211, [1210]); (1213, [1212]);
   (1215, [1214]); (1218, [1217]); (1220, [1219]); (1222, [1221]);
   (1224, [1223]); (1226, [1225]); (1228, [1227]); (1230, [1229]);
   (1231, [1216]); (1233, [1232]); (1235, [1234]); (1237, [1236]);
   (1239, [1238]); (1241, [1240]); (1243, [1242]); (1245, [1244]);
   (1247, [1246]); (1249, [1248]); (1251, [1250]); (1253, [1252]);
   (1255, [1254]); (1257, [1256]); (1259, [1258]); (1261, [1260]);
   (1263, [1262]); (1265, [1264]); (1267, [1266]); (1269, [1268]);
   (1271, [1270]); (1273, [1272]); (1275, [1274]); (1277, [1276]);
   (1279, [1278]); (1281, [1280]); (1283, [1282]); (1285, [1284]);
   (1287, [1286]); (1289, [1288]); (1291, [1290]); (1293, [1292]);
   (1295, [1294]); (1297, [1296]); (1299, [1298]); (1301, [1300]);
   (1303, [1302]); (1305, [1304]); (1307, [1306]); (1309, [1308]);
   (1311, [1310]); (1313, [1312]); (1315, [1314]); (1317, [1316]);
   (1319, [1318]); (1321, [1320]); (1323, [1322]); (1325, [1324]);
   (1327, [1326]); (1377, [1329]); (1378, [1330]); (1379, [1331]);
   (1380, [1332]); (1381, [1333]); (1382, [1334]); (1383, [1335]);
   (1384, [1336]); (1385, [1337]); (1386, [1338]); (1387, [1339]);
   (1388, [1340]); (1389, [1341]); (1390, [1342]); (1391, [1343]);
   (1392, [1344]); (1393, [1345]); (1394, [1346]); (1395, [1347]);
   (1396, [1348]); (1397, [1349]); (1398, [1350]); (1399, [1351]);
   (1400, [1352]); (1401, [1353]); (1402, [1354]); (1403, [1355]);
   (1404, [1356]); (1405, [1357]); (1406, [1358]); (1407, [1359]);
   (1408, [1360]); (1409, [1361]); (1410, [1362]); (1411, [1363]);
   (1412, [1364]); (1413, [1365]); (1414, [1366]); (1415, [1333; 1362]);
   (4304, [7312]); (4305, [7313]); (4306, [7314]); (4307, [7315]);
   (4308, [7316]); (4309, [7317]); (4310, [7318]); (4311, [7319]);
   (4312, [7320]); (4313, [7321]); (4314, [7322]); (4315, [7323]);
   (4316, [7324]); (4317, [7325]); (4318, [7326]); (4319, [7327]);
   (4320, [7328]); (4321, [7329]); (4322, [7330]); (4323, [7331]);
   (4324, [7332]); (4325, [7333]); (4326, [7334]); (4327, [7335]);
   (4328, [7336]); (4329, [7337]); (4330, [7338]); (4331, [7339]);
   (4332, [7340]); (4333, [7341]); (4334, [7342]); (4335, [7343]);
   (4336, [7344]); (4337, [7345]); (4338, [7346]); (4339, [7347]);
   (4340, [7348]); (4341, [7349]); (4342, [7350]); (4343, [7351]);
   (4344, [7352]); (4345, [7353]); (4346, [7354]); (4349, [7357]);
   (4350, [7358]); (4351, [7359]); (5112, [5104]); (5113, [5105]);
   (5114, [5106]); (5115, [5107]); (5116, [5108]); (5117, [5109]);
   (7296, [1042]); (7297, [1044]); (7298, [1054]); (7299, [1057]);
   (7300, [1058]); (7301, [1058]); (7302, [1066]); (7303, [1122]);
   (7304, [42570]); (7545, [42877]); (7549, [11363]); (7566, [42950]);
   (7681, [7680]); (7683, [7682]); (7685, [7684]); (7687, [7686]);
   (7689, [7688]); (7691, [7690]); (7693, [7692]); (7695, [7694]);
   (7697, [7696]); (7699, [7698]); (7701, [7700]); (7703, [7702]);
   (7705, [7704]); (7707, [7706]); (7709, [7708]); (7711, [7710]);
   (7713, [7712]); (7715, [7714]); (7717, [7716]); (7719, [7718]);
   (7721, [7720]); (7723, [7722]); (7725, [7724]); (7727, [7726]);
   (7729, [7728]); (7731, [7730]); (7733, [7732]); (7735, [7734]);
   (7737, [7736]); (7739, [7738]); (7741, [7740]); (7743, [7742]);
   (7745, [7744]); (7747, [7746]); (7749, [7748]); (7751, [7750]);
   (7753, [7752]); (7755, [7754]); (7757, [7756]); (7759, [7758]);
   (7761, [7760]); (7763, [7762]); (7765, [7764]); (7767, [7766]);
   (7769, [7768]); (7771, [7770]); (7773, [7772]); (7775, [7774]);
   (7777, [7776]); (7779, [7778]); (7781, [7780]); (7783, [7782]);
   (7785, [7784]); (7787, [7786]); (7789, [7788]); (7791, [7790]);
   (7793, [7792]); (7795, [7794]); (7797, [7796]); (7799, [7798]);
   (7801, [7800]); (7803, [7802]); (7805, [7804]); (7807, [7806]);
   (7809, [7808]); (7811, [7810]); (7813, [7812]); (7815, [7814]);
   (7817, [7816]); (7819, [7818]); (7821, [7820]); (7823, [7822]);
   (7825, [7824]); (7827, [7826]); (7829, [7828]); (7830, [72; 817]);
   (7831, [84; 776]); (7832, [87; 778]); (7833, [89; 778]);
   (7834, [65; 702]); (7835, [7776]); (7841, [7840]); (7843, [7842]);
   (7845, [7844]); (7847, [7846]); (7849, [7848]); (7851, [7850]);
   (7853, [7852]); (7855, [7854]); (7857, [7856]); (7859, [7858]);
   (7861, [7860]); (7863, [7862]); (7865, [7864]); (7867, [7866]);
   (7869, [7868]); (7871, [7870]); (7873, [7872]); (7875, [7874]);
   (7877, [7876]); (7879, [7878]); (7881, [7880]); (7883, [7882]);
   (7885, [7884]); (7887, [7886]); (7889, [7888]); (7891, [7890]);
   (7893, [7892]); (7895, [7894]); (7897, [7896]); (7899, [7898]);
   (7901, [7900]); (7903, [7902]); (7905, [7904]); (7907, [7906]);
   (7909, [7908]); (7911, [7910]); (7913, [7912]); (7915, [7914]);
   (7917, [7916]); (7919, [7918]); (7921, [7920]); (7923, [7922]);
   (7925, [7924]); (7927, [7926]); (7929, [7928]); (7931, [7930]);
   (7933, [7932]); (7935, [7934]); (7936, [7944]); (7937, [7945]);
   (7938, [7946]); (7939, [7947]); (7940, [7948]); (7941, [7949]);
   (7942, [7950]); (7943, [7951]); (7952, [7960]); (7953, [7961]);
   (7954, [7962]); (7955, [7963]); (7956, [7964]); (7957, [7965]);
   (7968, [7976]); (7969, [7977]); (7970, [7978]); (7971, [7979]);
   (7972, [7980]); (7973, [7981]); (7974, [7982]); (7975, [7983]);
   (7984, [7992]); (7985, [7993]); (7986, [7994]); (7987, [7995]);
   (7988, [7996]); (7989, [7997]); (7990, [7998]); (7991, [7999]);
   (8000, [8008]); (8001, [8009]); (8002, [8010]); (8003, [8011]);
   (8004, [8012]); (8005, [8013]); (8016, [933; 787]); (8017, [8025]);
   (8018, [933; 787; 768]); (8019, [8027]); (8020, [933; 787; 769]);
   (8021, [8029]); (8022, [933; 787; 834]); (8023, [8031]); (8032, [8040]);
   (8033, [8041]); (8034, [8042]); (8035, [8043]); (8036, [8044]);
   (8037, [8045]); (8038, [8046]); (8039, [8047]); (8048, [8122]);
   (8049, [8123]); (8050, [8136]); (8051, [8137]); (8052, [8138]);
   (8053, [8139]); (8054, [8154]); (8055, [8155]); (8056, [8184]);
   (8057, [8185]); (8058, [8170]); (8059, [8171]); (8060, [8186]);
   (8061, [8187]); (8064, [7944; 921]); (8065, [7945; 921]);
   (8066, [7946; 921]); (8067, [7947; 921]); (8068, [7948; 921]);
   (8069, [7949; 921]); (8070, [7950; 921]); (8071, [7951; 921]);
   (8072, [7944; 921]); (8073, [7945; 921]); (8074, [7946; 921]);
   (8075, [7947; 921]); (8076, [7948; 921]); (8077, [7949; 921]);
   (8078, [7950; 921]); (8079, [7951; 921]); (8080, [7976; 921]);
   (8081, [7977; 921]); (8082, [7978; 921]); (8083, [7979; 921]);
   (8084, [7980; 921]); (8085, [7981; 921]); (8086, [7982; 921]);
   (8087, [7983; 921]); (8088, [7976; 921]); (8089, [7977; 921]);
   (8090, [7978; 921]); (8091, [7979; 921]); (8092, [7980; 921]);
   (8093, [7981; 921]); (8094, [7982; 921]); (8095, [7983; 921]);
   (8096, [8040; 921]); (8097, [8041; 921]); (8098, [8042; 921]);
   (8099, [8043; 921]); (8100, [8044; 921]); (8101, [8045; 921]);
   (8102, [8046; 921]); (8103, [8047; 921]); (8104, [8040; 921]);
   (8105, [8041; 921]); (8106, [8042; 921]); (8107, [8043; 921]);
   (8108, [8044; 921]); (8109, [8045; 921]); (8110, [8046; 921]);
   (8111, [8047; 921]); (8112, [8120]); (8113, [8121]); (8114, [8122; 921]);
   (8115, [913; 921]); (8116, [902; 921]); (8118, [913; 834]);
   (8119, [913; 834; 921]); (8124, [913; 921]); (8126, [921]);
   (8130, [8138; 921]); (8131, [919; 921]); (8132, [905; 921]);
   (8134, [919; 834]); (8135, [919; 834; 921]); (8140, [919; 921]);
   (8144, [8152]); (8145, [8153]); (8146, [921; 776; 768]);
   (8147, [921; 776; 769]); (8150, [921; 834]); (8151, [921; 776; 834]);
   (8160, [8168]); (8161, [8169]); (8162, [933; 776; 768]);
   (8163, [933; 776; 769]); (8164, [929; 787]); (8165, [8172]);
   (8166, [933; 834]); (8167, [933; 776; 834]); (8178, [8186; 921]);
   (8179, [937; 921]); (8180, [911; 921]); (8182, [937; 834]);
   (8183, [937; 834; 921]); (8188, [937; 921]); (8526, [8498]);
   (8560, [8544]); (8561, [8545]); (8562, [8546]); (8563, [8547]);
   (8564, [8548]); (8565, [8549]); (8566, [8550]); (8567, [8551]);
   (8568, [8552]); (8569, [8553]); (8570, [8554]); (8571, [8555]);
   (8572, [8556]); (8573, [8557]); (8574, [8558]); (8575, [8559]);
   (8580, [8579]); (9424, [9398]); (9425, [9399]); (9426, [9400]);
   (9427, [9401]); (9428, [9402]); (9429, [9403]); (9430, [9404]);
   (9431, [9405]); (9432, [9406]); (9433, [9407]); (9434, [9408]);
   (9435, [9409]); (9436, [9410]); (9437, [9411]); (9438, [9412]);
   (9439, [9413]); (9440, [9414]); (9441, [9415]); (9442, [9416]);
   (9443, [9417]); (9444, [9418]); (9445, [9419]); (9446, [9420]);
   (9447, [9421]); (9448, [9422]); (9449, [9423]); (11312, [11264]);
   (11313, [11265]); (11314, [11266]); (11315, [11267]); (11316, [11268]);
   (11317, [11269]); (11318, [11270]); (11319, [11271]); (11320, [11272]);
   (11321, [11273]); (11322, [11274]); (11323, [11275]); (11324, [11276]);
   (11325, [11277]); (11326, [11278]); (11327, [11279]); (11328, [11280]);
   (11329, [11281]); (11330, [11282]); (11331, [11283]); (11332, [11284]);
   (11333, [11285]); (11334, [11286]); (11335, [11287]); (11336, [11288]);
   (11337, [11289]); (11338, [11290]); (11339, [11291]); (11340, [11292]);
   (11341, [11293]); (11342, [11294]); (11343, [11295]); (11344, [11296]);
   (11345, [11297]); (11346, [11298]); (11347, [11299]); (11348, [11300]);
   (11349, [11301]); (11350, [11302]); (11351, [11303]); (11352, [11304]);
   (11353, [11305]); (11354, [11306]); (11355, [11307]); (11356, [11308]);
   (11357, [11309]); (11358, [11310]); (11359, [11311]); (11361, [11360]);
   (11365, [570]); (11366, [574]); (11368, [11367]); (11370, [11369]);
   (11372, [11371]); (11379, [11378]); (11382, [11381]); (11393, [11392]);
   (11395, [11394]); (11397, [11396]); (11399, [11398]); (11401, [11400]);
   (11403, [11402]); (11405, [11404]); (11407, [11406]); (11409, [11408]);
   (11411, [11410]); (11413, [11412]); (11415, [11414]); (11417, [11416]);
   (11419, [11418]); (11421, [11420]); (11423, [11422]); (11425, [11424]);
   (11427, [11426]); (11429, [11428]); (11431, [11430]); (11433, [11432]);
   (11435, [11434]); (11437, [11436]); (11439, [11438]); (11441, [11440]);
   (11443, [11442]); (11445, [11444]); (11447, [11446]); (11449, [11448]);
   (11451, [11450]); (11453, [11452]); (11455, [11454]); (11457, [11456]);
   (11459, [11458]); (11461, [11460]); (11463, [11462]); (11465, [11464]);
   (11467, [11466]); (11469, [11468]); (11471, [11470]); (11473, [11472]);
   (11475, [11474]); (11477, [11476]); (11479, [11478]); (11481, [11480]);
   (11483, [11482]); (11485, [11484]); (11487, [11486]); (11489, [11488]);
   (11491, [11490]); (11500, [11499]); (11502, [11501]); (11507, [11506]);
   (11520, [4256]); (11521, [4257]); (11522, [4258]); (11523, [4259]);
   (11524, [4260]); (11525, [4261]); (11526, [4262]); (11527, [4263]);
   (11528, [4264]); (11529, [4265]); (11530, [4266]); (11531, [4267]);
   (11532, [4268]); (11533, [4269]); (11534, [4270]); (11535, [4271]);
   (11536, [4272]); (11537, [4273]); (11538, [4274]); (11539, [4275]);
   (11540, [4276]); (11541, [4277]); (11542, [4278]); (11543, [4279]);
   (11544, [4280]); (11545, [4281]); (11546, [4282]); (11547, [4283]);
   (11548, [4284]); (11549, [4285]); (11550, [4286]); (11551, [4287]);
   (11552, [4288]); (11553, [4289]); (11554, [4290]); (11555, [4291]);
   (11556, [4292]); (11557, [4293]); (11559, [4295]); (11565, [4301]);
   (42561, [42560]); (42563, [42562]); (42565, [42564]); (42567, [42566]);
   (42569, [42568]); (42571, [42570]); (42573, [42572]); (42575, [42574]);
   (42577, [42576]); (42579, [42578]); (42581, [42580]); (42583, [42582]);
   (42585, [42584]); (42587, [42586]); (42589, [42588]); (42591, [42590]);
   (42593, [42592]); (42595, [42594]); (42597, [42596]); (42599, [42598]);
   (42601, [42600]); (42603, [42602]); (42605, [42604]); (42625, [42624]);
   (42627, [42626]); (42629, [42628]); (42631, [42630]); (42633, [42632]);
   (42635, [42634]); (42637, [42636]); (42639, [42638]); (42641, [42640]);
   (42643, [42642]); (42645, [42644]); (42647, [42646]); (42649, [42648]);
   (42651, [42650]); (42787, [42786]); (42789, [42788]); (42791, [42790]);
   (42793, [42792]); (42795, [42794]); (42797, [42796]); (42799, [42798]);
   (42803, [42802]); (42805, [42804]); (42807, [42806]); (42809, [42808]);
   (42811, [42810]); (42813, [42812]); (42815, [42814]); (42817, [42816]);
   (42819, [42818]); (42821, [42820]); (42823, [42822]); (42825, [42824]);
   (42827, [42826]); (42829, [42828]); (42831, [42830]); (42833, [42832]);
   (42835, [42834]); (42837, [42836]); (42839, [42838]); (42841, [42840]);
   (42843, [42842]); (42845, [42844]); (42847, [42846]); (42849, [42848]);
   (42851, [42850]); (42853, [42852]); (42855, [42854]); (42857, [42856]);
   (42859, [42858]); (42861, [42860]); (42863, [42862]); (42874, [42873]);
   (42876, [42875]); (42879, [42878]); (42881, [42880]); (42883, [42882]);
   (42885, [42884]); (42887, [42886]); (42892, [42891]); (42897, [42896]);
   (42899, [42898]); (42900, [42948]); (42903, [42902]); (42905, [42904]);
   (42907, [42906]); (42909, [42908]); (42911, [42910]); (42913, [42912]);
   (42915, [42914]); (42917, [42916]); (42919, [42918]); (42921, [42920]);
   (42933, [42932]); (42935, [42934]); (42937, [42936]); (42939, [42938]);
   (42941, [42940]); (42943, [42942]); (42945, [42944]); (42947, [42946]);
   (42952, [42951]); (42954, [42953]); (42961, [42960]); (42967, [42966]);
   (42969, [42968]); (42998, [42997]); (43859, [42931]); (43888, [5024]);
   (43889, [5025]); (43890, [5026]); (43891, [5027]); (43892, [5028]);
   (43893, [5029]); (43894, [5030]); (43895, [5031]); (43896, [5032]);
   (43897, [5033]); (43898, [5034]); (43899, [5035]); (43900, [5036]);
   (43901, [5037]); (43902, [5038]); (43903, [5039]); (43904, [5040]);
   (43905, [5041]); (43906, [5042]); (43907, [5043]); (43908, [5044]);
   (43909, [5045]); (43910, [5046]); (43911, [5047]); (43912, [5048]);
   (43913, [5049]); (43914, [5050]); (43915, [5051]); (43916, [5052]);
   (43917, [5053]); (43918, [5054]); (43919, [5055]); (43920, [5056]);
   (43921, [5057]); (43922, [5058]); (43923, [5059]); (43924, [5060]);
   (43925, [5061]); (43926, [5062]); (43927, [5063]); (43928, [5064]);
   (43929, [5065]); (43930, [5066]); (43931, [5067]); (43932, [5068]);
   (43933, [5069]); (43934, [5070]); (43935, [5071]); (43936, [5072]);
   (43937, [5073]); (43938, [5074]); (43939, [5075]); (43940, [5076]);
   (43941, [5077]); (43942, [5078]); (43943, [5079]); (43944, [5080]);
   (43945, [5081]); (43946, [5082]); (43947, [5083]); (43948, [5084]);
   (43949, [5085]); (43950, [5086]); (43951, [5087]); (43952, [5088]);
   (43953, [5089]); (43954, [5090]); (43955, [5091]); (43956, [5092]);
   (43957, [5093]); (43958, [5094]); (43959, [5095]); (43960, [5096]);
   (43961, [5097]); (43962, [5098]); (43963, [5099]); (43964, [5100]);
   (43965, [5101]); (43966, [5102]); (43967, [5103]); (64256, [70; 70]);
   (64257, [70; 73]); (64258, [70; 76]); (64259, [70; 70; 73]);
   (64260, [70; 70; 76]); (64261, [83; 84]); (64262, [83; 84]);
   (64275, [1348; 1350]); (64276, [1348; 1333]); (64277, [1348; 1339]);
   (64278, [1358; 1350]); (64279, [1348; 1341]); (65345, [65313]);
   (65346, [65314]); (65347, [65315]); (65348, [65316]); (65349, [65317]);
   (65350, [65318]); (65351, [65319]); (65352, [65320]); (65353, [65321]);
   (65354, [65322]); (65355, [65323]); (65356, [65324]); (65357, [65325]);
   (65358, [65326]); (65359, [65327]); (65360, [65328]); (65361, [65329]);
   (65362, [65330]); (65363, [65331]); (65364, [65332]); (65365, [65333]);
   (65366, [65334]); (65367, [65335]); (65368, [65336]); (65369, [65337]);
   (65370, [65338]); (66600, [66560]); (66601, [66561]); (66602, [66562]);
   (66603, [66563]); (66604, [66564]); (66605, [66565]); (66606, [66566]);
   (66607, [66567]); (66608, [66568]); (66609, [66569]); (66610, [66570]);
   (66611, [66571]); (66612, [66572]); (66613, [66573]); (66614, [66574]);
   (66615, [66575]); (66616, [66576]); (66617, [66577]); (66618, [66578]);
   (66619, [66579]); (66620, [66580]); (66621, [66581]); (66622, [66582]);
   (66623, [66583]); (66624, [66584]); (66625, [66585]); (66626, [66586]);
   (66627, [66587]); (66628, [66588]); (66629, [66589]); (66630, [66590]);
   (66631, [66591]); (66632, [66592]); (66633, [66593]); (66634, [66594]);
   (66635, [66595]); (66636, [66596]); (66637, [66597]); (66638, [66598]);
   (66639, [66599]); (66776, [66736]); (66777, [66737]); (66778, [66738]);
   (66779, [66739]); (66780, [66740]); (66781, [66741]); (66782, [66742]);
   (66783, [66743]); (66784, [66744]); (66785, [66745]); (66786, [66746]);
   (66787, [66747]); (66788, [66748]); (66789, [66749]); (66790, [66750]);
   (66791, [66751]); (66792, [66752]); (66793, [66753]); (66794, [66754]);
   (66795, [66755]); (66796, [66756]); (66797, [66757]); (66798, [66758]);
   (66799, [66759]); (66800, [66760]); (66801, [66761]); (66802, [66762]);
   (66803, [66763]); (66804, [66764]); (66805, [66765]); (66806, [66766]);
   (66807, [66767]); (66808, [66768]); (66809, [66769]); (66810, [66770]);
   (66811, [66771]); (66967, [66928]); (66968, [66929]); (66969, [66930]);
   (66970, [66931]); (66971, [66932]); (66972, [66933]); (66973, [66934]);
   (66974, [66935]); (66975, [66936]); (66976, [66937]); (66977, [66938]);
   (66979, [66940]); (66980, [66941]); (66981, [66942]); (66982, [66943]);
   (66983, [66944]); (66984, [66945]); (66985, [66946]); (66986, [66947]);
   (66987, [66948]); (66988, [66949]); (66989, [66950]); (66990, [66951]);
   (66991, [66952]); (66992, [66953]); (66993, [66954]); (66995, [66956]);
   (66996, [66957]); (66997, [66958]); (66998, [66959]); (66999, [66960]);
   (67000, [66961]); (67001, [66962]); (67003, [66964]); (67004, [66965]);
   (68800, [68736]); (68801, [68737]); (68802, [68738]); (68803, [68739]);
   (68804, [68740]); (68805, [68741]); (68806, [68742]); (68807, [68743]);
   (68808, [68744]); (68809, [68745]); (68810, [68746]); (68811, [68747]);
   (68812, [68748]); (68813, [68749]); (68814, [68750]); (68815, [68751]);
   (68816, [68752]); (68817, [68753]); (68818, [68754]); (68819, [68755]);
   (68820, [68756]); (68821, [68757]); (68822, [68758]); (68823, [68759]);
   (68824, [68760]); (68825, [68761]); (68826, [68762]); (68827, [68763]);
   (68828, [68764]); (68829, [68765]); (68830, [68766]); (68831, [68767]);
   (68832, [68768]); (68833, [68769]); (68834, [68770]); (68835, [68771]);
   (68836, [68772]); (68837, [68773]); (68838, [68774]); (68839, [68775]);
   (68840, [68776]); (68841, [68777]); (68842, [68778]); (68843, [68779]);
   (68844, [68780]); (68845, [68781]); (68846, [68782]); (68847, [68783]);
   (68848, [68784]); (68849, [68785]); (68850, [68786]); (71872, [71840]);
   (71873, [71841]); (71874, [71842]); (71875, [71843]); (71876, [71844]);
   (71877, [71845]); (71878, [71846]); (71879, [71847]); (71880, [71848]);
   (71881, [71849]); (71882, [71850]); (71883, [71851]); (71884, [71852]);
   (71885, [71853]); (71886, [71854]); (71887, [71855]); (71888, [71856]);
   (71889, [71857]); (71890, [71858]); (71891, [71859]); (71892, [71860]);
   (71893, [71861]); (71894, [71862]); (71895, [71863]); (71896, [71864]);
   (71897, [71865]); (71898, [71866]); (71899, [71867]); (71900, [71868]);
   (71901, [71869]); (71902, [71870]); (71903, [71871]); (93792, [93760]);
   (93793, [93761]); (93794, [93762]); (93795, [93763]); (93796, [93764]);
   (93797, [93765]); (93798, [93766]); (93799, [93767]); (93800, [93768]);
   (93801, [93769]); (93802, [93770]); (93803, [93771]); (93804, [93772]);
   (93805, [93773]); (93806, [93774]); (93807, [93775]); (93808, [93776]);
   (93809, [93777]); (93810, [93778]); (93811, [93779]); (93812, [93780]);
   (93813, [93781]); (93814, [93782]); (93815, [93783]); (93816, [93784]);
   (93817, [93785]); (93818, [93786]); (93819, [93787]); (93820, [93788]);
   (93821, [93789]); (93822, [93790]); (93823, [93791]); (125218, [125184]);
   (125219, [125185]); (125220, [125186]); (125221, [125187]);
   (125222, [125188]); (125223, [125189]); (125224, [125190]);
   (125225, [125191]); (125226, [125192]); (125227, [125193]);
   (125228, [125194]); (125229, [125195]); (125230, [125196]);
   (125231, [125197]); (125232, [125198]); (125233, [125199]);
   (125234, [125200]); (125235, [125201]); (125236, [125202]);
   (125237, [125203]); (125238, [125204]); (125239, [125205]);
   (125240, [125206]); (125241, [125207]); (125242, [125208]);
   (125243, [125209]); (125244, [125210]); (125245, [125211]);
   (125246, [125212]); (125247, [125213]); (125248, [125214]);
   (125249, [125215]); (125250, [125216]); (125251, [125217])
  ])%N.

Definition upper_char (c : N) : text :=
  match table_get c uppercase_table with
  | Some form => form
  | None => [c]
  end.

(** [str.upper]. *)
Definition upper (s : text) : text := flat_map upper_char s.
Arguments upper_char : simpl never.
Arguments upper : simpl never.

(** The upper-case form of the letters [a] to [z] alone: what "in any
    letter case" means for a name made of ASCII letters. *)
Definition ascii_upper (s : text) : text :=
  map (fun c => if ((97 <=? c) && (c <=? 122))%N then (c - 32)%N else c) s.

(* ================================================================== *)
(** * Times of day                                                     *)
(* ================================================================== *)

(** [datetime.time]: naive times compare as the tuples
    [(hour, minute, second, microsecond)]. *)
Record time : Type := mkTime {
  hour : nat;
  minute : nat;
  second : nat;
  microsecond : nat
}.

Definition time_cmp (a b : time) : comparison :=
  match Nat.compare (hour a) (hour b) with
  | Eq =>
      match Nat.compare (minute a) (minute b) with
      | Eq =>
          match Nat.compare (second a) (second b) with
          | Eq => Nat.compare (microsecond a) (microsecond b)
          | c => c
          end
      | c => c
      end
  | c => c
  end.

Definition time_le (a b : time) : bool :=
  match time_cmp a b with Gt => false | _ => true end.

Definition time_lt (a b : time) : bool :=
  match time_cmp a b with Lt => true | _ => false end.

(** The decimal digits: the characters the class [\d] of [re] matches in
    a [str] and [int] converts.  They come in runs of ten, a zero to a
    nine, in every script that has them; these are the zeros (Unicode
    14.0). *)
Definition decimal_zeros : list N :=
  ([
   48; 1632; 1776; 1984; 2406; 2534; 2662; 2790; 2918; 3046; 3174; 3302;
   3430; 3558; 3664; 3792; 3872; 4160; 4240; 6112; 6160; 6470; 6608; 6784;
   6800; 6992; 7088; 7232; 7248; 42528; 43216; 43264; 43472; 43504; 43600;
   44016; 65296; 66720; 68912; 69734; 69872; 69942; 70096; 70384; 70736;
   70864; 71248; 71360; 71472; 71904; 72016; 72784; 73040; 73120; 92768;
   92864; 93008; 120782; 120792; 120802; 120812; 120822; 123200; 123632;
   125264; 130032
  ])%N.

Definition digit_value (c : N) : option nat :=
  match find (fun zero => (zero <=? c) && (c <? zero + 10))%N decimal_zeros
  with
  | Some zero => Some (N.to_nat (c - zero))
  | None => None
  end.

(** The classes [[0-3]], [[0-1]], [[0-5]] and the literal [2] of the
    pattern match ASCII digits only. *)
Definition ascii_digit (low high : N) (c : N) : option nat :=
  if ((48 + low <=? c) && (c <=? 48 + high))%N
  then Some (N.to_nat (c - 48)) else None.

(** [datetime.strptime(s, '%H:%M').time()].  The format is matched as the
    pattern [(2[0-3]|[0-1]\d|\d):([0-5]\d|\d)], and the whole string has
    to be used up; the two groups are converted by [int].  [None] stands
    for the [ValueError] of a string that does not match. *)
Definition hour_of (h : text) : option nat :=
  match h with
  | [a; b] =>
      match ascii_digit 2 2 a, ascii_digit 0 3 b with
      | Some _, Some y => Some (20 + y)
      | _, _ =>
          match ascii_digit 0 1 a, digit_value b with
          | Some x, Some y => Some (10 * x + y)
          | _, _ => None
          end
      end
  | [a] => digit_value a
  | _ => None
  end.

Definition minute_of (m : text) : option nat :=
  match m with
  | [a; b] =>
      match ascii_digit 0 5 a, digit_value b with
      | Some x, Some y => Some (10 * x + y)
      | _, _ => None
      end
  | [a] => digit_value a
  | _ => None
  end.

Fixpoint split_colon (s : text) : option (text * text) :=
  match s with
  | [] => None
  | c :: rest =>
      if N.eqb c 58 then Some ([], rest)
      else match split_colon rest with
           | Some (h, m) => Some (c :: h, m)
           | None => None
           end
  end.

Definition strptime_HM (s : text) : option time :=
  match split_colon s with
  | Some (h, m) =>
      match hour_of h, minute_of m with
      | Some hh, Some mm => Some (mkTime hh mm 0 0)
      | _, _ => None
      end
  | None => None
  end.

(** The two constants of [start]: [strptime('23:59', '%H:%M').time()] and
    [strptime('00:00', '%H:%M').time()]. *)
Definition t_23_59 : time := mkTime 23 59 0 0.
Definition t_00_00 : time := mkTime 0 0 0 0.

(** The condition of the [if] at the top of each cycle of [start]:
    [start_time <= now <= 23:59 or 00:00 <= now < end_time]. *)
Definition in_window (start_time end_time now : time) : bool :=
  (time_le start_time now && time_le now t_23_59)
  || (time_le t_00_00 now && time_lt now end_time).

(** The interval logic the specification describes: a window whose start is
    later than its end wraps past midnight. *)
Definition window_reference (start_time end_time now : time) : bool :=
  if time_lt end_time start_time
  then time_le start_time now || time_lt now end_time
  else time_le start_time now && time_lt now end_time.

(* ================================================================== *)
(** * The environment                                                  *)
(* ================================================================== *)

(** The exception classes the program names or can meet.
    [UnicodeDecodeError] is a subclass of [ValueError];
    [AsyncioTimeoutError] is [asyncio.TimeoutError], the exception of
    [asyncio.wait_for], and [TimeoutExpired] is [subprocess.TimeoutExpired]:
    neither is a subclass of the other. *)
Inductive exn : Type :=
| CalledProcessError
| TimeoutExpired
| ValueError
| UnicodeDecodeError
| AsyncioTimeoutError
| OSError
| KeyError
| TypeError.

Definition exn_eqb (a b : exn) : bool :=
  match a, b with
  | CalledProcessError, CalledProcessError
  | TimeoutExpired, TimeoutExpired
  | ValueError, ValueError
  | UnicodeDecodeError, UnicodeDecodeError
  | AsyncioTimeoutError, AsyncioTimeoutError
  | OSError, OSError
  | KeyError, KeyError
  | TypeError, TypeError => true
  | _, _ => false
  end.

(** [isinstance e cls]: does the clause [except cls] catch [e]? *)
Definition isinstance (e cls : exn) : bool :=
  match e, cls with
  | UnicodeDecodeError, ValueError => true
  | _, _ => exn_eqb e cls
  end.

Definition exn_name (e : exn) : string :=
  match e with
  | CalledProcessError => "CalledProcessError"
  | TimeoutExpired => "TimeoutExpired"
  | ValueError => "ValueError"
  | UnicodeDecodeError => "UnicodeDecodeError"
  | AsyncioTimeoutError => "TimeoutError"
  | OSError => "OSError"
  | KeyError => "KeyError"
  | TypeError => "TypeError"
  end.

Inductive level : Type := DEBUG | INFO | WARNING | ERROR.

(** What an observer of the program sees: a [catt] process being started
    with its argument vector, a timed pause, a log record. *)
Inductive event : Type :=
| Spawn (argv : list string)
| Sleep (seconds : N)
| Log (lvl : level) (msg : string).

(** What a started process does: it exits after [duration] seconds with a
    return code and the bytes of its standard output ([None] when they are
    not valid text for [bytes.decode]), or it never exits. *)
Inductive behaviour : Type :=
| Exits (duration : N) (returncode : nat) (stdout : option string)
| Hangs.

(** The result of [asyncio.create_subprocess_exec]: an exception (the
    program cannot be started) or a process. *)
Inductive spawn_result : Type :=
| SpawnRaises (e : exn)
| Started (b : behaviour).

(** The environment answers the [n]-th process start of the run. *)
Definition oracle : Type := nat -> list string -> spawn_result.

Record world : Type := mkWorld {
  clock : N;              (* seconds since the midnight before the start *)
  spawned : nat;          (* processes started so far *)
  trace : list event      (* events so far, oldest first *)
}.

Definition tick (n : N) (w : world) : world :=
  mkWorld (clock w + n)%N (spawned w) (trace w).

Definition record_event (e : event) (w : world) : world :=
  mkWorld (clock w) (spawned w) (trace w ++ [e]).

(** A coroutine returns, raises, or never resumes. *)
Inductive outcome (A : Type) : Type :=
| Ret (a : A)
| Raise (e : exn)
| Stall.
Arguments Ret {A} a.
Arguments Raise {A} e.
Arguments Stall {A}.

Definition M (A : Type) : Type := world -> outcome A * world.

Definition ret {A} (a : A) : M A := fun w => (Ret a, w).

Definition raise {A} (e : exn) : M A := fun w => (Raise e, w).

Definition bind {A B} (m : M A) (k : A -> M B) : M B :=
  fun w =>
    match m w with
    | (Ret a, w') => k a w'
    | (Raise e, w') => (Raise e, w')
    | (Stall, w') => (Stall, w')
    end.

Notation "x <- c1 ;; c2" := (bind c1 (fun x => c2))
  (at level 61, c1 at next level, right associativity).
Notation "c1 ;; c2" := (bind c1 (fun _ => c2))
  (at level 61, right associativity).

(** [try: body except ...: handler]: [handler e] is the first clause that
    catches [e], if there is one. *)
Definition try_except {A} (body : M A) (handler : exn -> option (M A)) : M A :=
  fun w =>
    match body w with
    | (Raise e, w') =>
        match handler e with
        | Some h => h w'
        | None => (Raise e, w')
        end
    | r => r
    end.

Definition emit (e : event) : M unit := fun w => (Ret tt, record_event e w).

Definition log (lvl : level) (msg : string) : M unit := emit (Log lvl msg).

(** [await asyncio.sleep(n)]. *)
Definition asyncio_sleep (n : N) : M unit :=
  fun w => (Ret tt, tick n (record_event (Sleep n) w)).

(** [datetime.now().time()], read off the clock.  The clock of a world
    moves only while the program waits, for a pause or for a process: the
    time the program takes to compute between two waits is counted as
    nothing, and a time read off the clock is on a whole second. *)
Definition time_of_clock (c : N) : time :=
  let s := (c mod 86400)%N in
  mkTime (N.to_nat (s / 3600)) (N.to_nat ((s / 60) mod 60))
         (N.to_nat (s mod 60)) 0.

Definition datetime_now_time : M time :=
  fun w => (Ret (time_of_clock (clock w)), w).

(** [await process.wait()] and [await process.communicate()]. *)
Definition process_wait (p : behaviour) : M nat :=
  fun w =>
    match p with
    | Exits d rc _ => (Ret rc, tick d w)
    | Hangs => (Stall, w)
    end.

Definition process_communicate (p : behaviour) : M (option string) :=
  fun w =>
    match p with
    | Exits d _ out => (Ret out, tick d w)
    | Hangs => (Stall, w)
    end.

(** [await asyncio.wait_for(aw, timeout)]: an awaitable that has not
    finished after [timeout] seconds is cancelled and
    [asyncio.TimeoutError] is raised. *)
Definition wait_for {A} (aw : M A) (timeout : N) : M A :=
  fun w =>
    match aw w with
    | (Stall, _) => (Raise AsyncioTimeoutError, tick timeout w)
    | (r, w') =>
        if (timeout <? clock w' - clock w)%N
        then (Raise AsyncioTimeoutError, tick timeout w)
        else (r, w')
    end.

(** [stdout.decode()]. *)
Definition decode (out : option string) : M string :=
  match out with
  | Some s => ret s
  | None => raise UnicodeDecodeError
  end.

(* ================================================================== *)
(** * Configuration and construction                                    *)
(* ================================================================== *)

(** An entry of [self.device_map], and the attributes [__init__] sets on
    [self].  A [dict] is an association list in insertion order. *)
Record device_info : Type := mkDevice {
  dashboard_url : string;
  dashboard_state_name : string
}.

Record caster : Type := mkCaster {
  device_map : list (string * device_info);
  cast_delay : N;
  start_time : time;
  end_time : time;
  max_retries : nat;
  retry_delay : N
}.

(** The value stored under [k], if any. *)
Fixpoint dict_get {V} (k : string) (d : list (string * V)) : option V :=
  match d with
  | [] => None
  | (k', v) :: rest => if String.eqb k k' then Some v else dict_get k rest
  end.

(** [d[k] = v]: an existing key keeps its place, a new one goes last. *)
Fixpoint dict_set {V} (k : string) (v : V) (d : list (string * V))
    : list (string * V) :=
  match d with
  | [] => [(k, v)]
  | (k', v') :: rest =>
      if String.eqb k k' then (k, v) :: rest else (k', v') :: dict_set k v rest
  end.

(** The configuration [dict] handed to the constructor: a key that is
    absent is [None]. *)
Record device_config : Type := mkDeviceConfig {
  cfg_dashboard_url : option string;
  cfg_dashboard_state_name : option string
}.

Record config : Type := mkConfig {
  cfg_cast_delay : option N;
  cfg_start_time : option text;
  cfg_end_time : option text;
  cfg_devices : option (list (string * device_config));
  cfg_logging_level : option text
}.

(** Construction has no effect on the outside world: it returns or
    raises. *)
Inductive except (A : Type) : Type :=
| Ok (a : A)
| Error (e : exn).
Arguments Ok {A} a.
Arguments Error {A} e.

Definition ebind {A B} (m : except A) (k : A -> except B) : except B :=
  match m with
  | Ok a => k a
  | Error e => Error e
  end.

Notation "x <~ c1 ;; c2" := (ebind c1 (fun x => c2))
  (at level 61, c1 at next level, right associativity).

(** [d[key]] on the configuration, and [d.get(key, default)]. *)
Definition subscript {V} (field : option V) : except V :=
  match field with
  | Some v => Ok v
  | None => Error KeyError
  end.

Definition get_default {V} (field : option V) (default : V) : V :=
  match field with
  | Some v => v
  | None => default
  end.

Definition strptime_time (s : text) : except time :=
  match strptime_HM s with
  | Some t => Ok t
  | None => Error ValueError
  end.

(** The attributes of the module [logging] whose names have no lower-case
    letter: the numeric levels, and the format string [BASIC_FORMAT] and
    the table [_STYLES], which are not [int]s. *)
Inductive attribute : Type :=
| IntAttr (n : nat)
| OtherAttr.

Definition logging_attributes : list (string * attribute) :=
  [ ("CRITICAL", IntAttr 50); ("FATAL", IntAttr 50); ("ERROR", IntAttr 40);
    ("WARNING", IntAttr 30); ("WARN", IntAttr 30); ("INFO", IntAttr 20);
    ("DEBUG", IntAttr 10); ("NOTSET", IntAttr 0);
    ("BASIC_FORMAT", OtherAttr); ("_STYLES", OtherAttr) ].

Fixpoint attribute_get (name : text) (attrs : list (string * attribute))
    : option attribute :=
  match attrs with
  | [] => None
  | (k, v) :: rest =>
      if text_eqb name (text_of_string k) then Some v
      else attribute_get name rest
  end.

(** [getattr(logging, name, None)]. *)
Definition getattr_logging (name : text) : option attribute :=
  attribute_get name logging_attributes.
Arguments getattr_logging : simpl never.

(** The [for] loop of [__init__] that fills [self.device_map]. *)
Fixpoint load_devices (devices : list (string * device_config))
    (device_map : list (string * device_info))
    : except (list (string * device_info)) :=
  match devices with
  | [] => Ok device_map
  | (device_name, entry) :: rest =>
      url <~ subscript (cfg_dashboard_url entry);;
      let state_name :=
        get_default (cfg_dashboard_state_name entry) "Dummy" in
      load_devices rest
        (dict_set device_name (mkDevice url state_name) device_map)
  end.

(** [__init__]: the new object and the level given to [_LOGGER.setLevel],
    or the exception raised. *)
Definition init (cfg : config) : except (caster * nat) :=
  cast_delay <~ subscript (cfg_cast_delay cfg);;
  start_string <~ subscript (cfg_start_time cfg);;
  start_time <~ strptime_time start_string;;
  end_string <~ subscript (cfg_end_time cfg);;
  end_time <~ strptime_time end_string;;
  let max_retries := 5 in
  let retry_delay := 30%N in
  devices <~ subscript (cfg_devices cfg);;
  device_map <~ load_devices devices [];;
  let log_level :=
    get_default (cfg_logging_level cfg) (text_of_string "info") in
  match getattr_logging (upper log_level) with
  | Some (IntAttr numeric_log_level) =>
      Ok (mkCaster device_map cast_delay start_time end_time
            max_retries retry_delay,
          numeric_log_level)
  | _ => Error ValueError
  end.

Section Environment.

Variable env : oracle.

(** [await asyncio.create_subprocess_exec] on the words of [argv]. *)
Definition create_subprocess_exec (argv : list string) : M behaviour :=
  fun w =>
    let w' := mkWorld (clock w) (S (spawned w)) (trace w ++ [Spawn argv]) in
    match env (spawned w) argv with
    | SpawnRaises e => (Raise e, w')
    | Started p => (Ret p, w')
    end.

(* ================================================================== *)
(** * The class [HaContinuousCastingDashboard]                          *)
(* ================================================================== *)

(** The methods below are those of one object [self]. *)
Variable self : caster.

(** [d[k]], raising [KeyError] for a missing key. *)
Definition getitem {V} (d : list (string * V)) (k : string) : M V :=
  match dict_get k d with
  | Some v => ret v
  | None => raise KeyError
  end.

Definition catt (device_name : string) (words : list string) : list string :=
  "catt" :: "-d" :: device_name :: words.

Definition check_status (device_name state : string) : M pyval :=
  try_except
    (process <- create_subprocess_exec (catt device_name ["status"]);;
     stdout <- wait_for (process_communicate process) 10%N;;
     status_output <- decode stdout;;
     ret (PyStr status_output))
    (fun e =>
       if isinstance e CalledProcessError then
         Some (log ERROR ("Error checking " +++ state +++ " state for "
                            +++ device_name +++ ": " +++ exn_name e);;
               ret PyNone)
       else if isinstance e TimeoutExpired then
         Some (log ERROR ("Timeout checking " +++ state +++ " state for "
                            +++ device_name +++ ": " +++ exn_name e);;
               ret PyNone)
       else if isinstance e ValueError then
         Some (log ERROR ("Invalid file descriptor for " +++ device_name
                            +++ ": " +++ exn_name e);;
               ret PyNone)
       else None).

Definition check_dashboard_state (device_name : string) : M pyval :=
  info <- getitem (device_map self) device_name;;
  check_status device_name (dashboard_state_name info).

Definition check_media_state (device_name : string) : M pyval :=
  check_status device_name "PLAYING".

Definition check_both_states (device_name : string) : M pyval :=
  info <- getitem (device_map self) device_name;;
  let state_name := dashboard_state_name info in
  status_output <- check_status device_name state_name;;
  if is_None status_output || negb (truthy status_output) then
    ret (PyBool false)
  else
    log DEBUG ("Status output for " +++ device_name
                 +++ " when checking for dashboard state '" +++ state_name
                 +++ "': " +++ py_str status_output);;
    match status_output with
    | PyStr text =>
        let is_dashboard_state := str_in state_name text in
        let is_media_state := str_in "PLAYING" text in
        ret (PyBool (is_dashboard_state || is_media_state))
    | _ => raise TypeError
    end.

Definition cast_dashboard (device_name url : string) : M unit :=
  try_except
    (log INFO ("Casting dashboard to " +++ device_name);;
     process <- create_subprocess_exec (catt device_name ["stop"]);;
     wait_for (process_wait process) 10%N;;
     process <- create_subprocess_exec (catt device_name ["volume"; "0"]);;
     wait_for (process_wait process) 10%N;;
     process <- create_subprocess_exec (catt device_name ["cast_site"; url]);;
     wait_for (process_wait process) 10%N;;
     process <- create_subprocess_exec (catt device_name ["volume"; "50"]);;
     wait_for (process_wait process) 10%N;;
     ret tt)
    (fun e =>
       if isinstance e CalledProcessError then
         Some (log ERROR ("Error casting dashboard to " +++ device_name
                            +++ ": " +++ exn_name e))
       else if isinstance e ValueError then
         Some (log ERROR ("Invalid file descriptor for " +++ device_name
                            +++ ": " +++ exn_name e))
       else if isinstance e AsyncioTimeoutError then
         Some (log ERROR ("Timeout casting dashboard to " +++ device_name
                            +++ ": " +++ exn_name e))
       else None).

(** The [while retry_count < self.max_retries: ... else: ...] loop of
    [start] for one device.  [remaining] is [max_retries - retry_count], the
    number of iterations the loop condition still allows.  The result is
    [true] when the loop was left by [break] and [false] when its condition
    became false (the [else] clause runs). *)
Fixpoint retry_loop (device_name : string) (info : device_info)
    (remaining retry_count : nat) : M bool :=
  match remaining with
  | 0 => ret false
  | S remaining' =>
      first <- check_both_states device_name;;
      if is_None first then
        let retry_count := retry_count + 1 in
        log WARNING ("Retrying in " +++ str_of_N (retry_delay self)
                       +++ " seconds for " +++ str_of_nat retry_count
                       +++ " time(s) due to previous errors");;
        asyncio_sleep (retry_delay self);;
        retry_loop device_name info remaining' retry_count
      else
        second <- check_both_states device_name;;
        if truthy second then
          log INFO ("HA Dashboard (or media) is playing on "
                      +++ device_name +++ "...");;
          ret true
        else
          log INFO ("HA Dashboard (or media) is NOT playing on "
                      +++ device_name +++ "!");;
          cast_dashboard device_name (dashboard_url info);;
          ret true
  end.

(** The body of the [for] loop inside the window. *)
Definition inside_device (item : string * device_info) : M unit :=
  let (device_name, info) := item in
  broke <- retry_loop device_name info (max_retries self) 0;;
  if broke then asyncio_sleep (cast_delay self)
  else
    log ERROR ("Max retries exceeded for " +++ device_name
                 +++ ". Skipping...").

Fixpoint for_each {A} (body : A -> M unit) (items : list A) : M unit :=
  match items with
  | [] => ret tt
  | item :: rest => body item;; for_each body rest
  end.

(** The body of the [for] loop outside the window; it returns the new
    value of [ha_cast_active]. *)
Definition outside_device (ha_cast_active : bool)
    (item : string * device_info) : M bool :=
  let (device_name, _) := item in
  state <- check_dashboard_state device_name;;
  if truthy state then
    log INFO ("HA Dashboard is currently being cast on " +++ device_name
                +++ ". Stopping...");;
    stopped <- try_except
      (process <- create_subprocess_exec (catt device_name ["stop"]);;
       process_wait process;;
       ret true)
      (fun e =>
         if isinstance e CalledProcessError then
           Some (log ERROR ("Error stopping dashboard on " +++ device_name
                              +++ ": " +++ exn_name e);;
                 ret false)
         else None);;
    if stopped then
      asyncio_sleep (cast_delay self);;
      ret true
    else ret ha_cast_active
  else
    log INFO ("HA Dashboard is NOT currently being cast on "
                +++ device_name +++ ". Skipping...");;
    ret ha_cast_active.

Fixpoint outside_sweep (items : list (string * device_info))
    (ha_cast_active : bool) : M bool :=
  match items with
  | [] => ret ha_cast_active
  | item :: rest =>
      active <- outside_device ha_cast_active item;;
      outside_sweep rest active
  end.

Definition outside_window : M unit :=
  log INFO ("Local time is outside of allowed range for casting the "
              +++ "screen. Checking for any active HA cast sessions...");;
  ha_cast_active <- outside_sweep (device_map self) false;;
  if negb ha_cast_active then
    log INFO "No active HA cast sessions found. Sleeping for 5 minutes...";;
    asyncio_sleep (cast_delay self)
  else ret tt.

(** One iteration of [while True:] in [start]. *)
Definition cycle : M unit :=
  now <- datetime_now_time;;
  if in_window (start_time self) (end_time self) now then
    for_each inside_device (device_map self)
  else outside_window.

(** [start] never returns: [start_cycles n] is its first [n] cycles, and
    the outcome [Ret tt] means that the loop is still running after them. *)
Fixpoint start_cycles (n : nat) : M unit :=
  match n with
  | 0 => ret tt
  | S n' => cycle;; start_cycles n'
  end.

End Environment.

(* ================================================================== *)
(** * Observations on traces                                           *)
(* ================================================================== *)

Fixpoint words_eqb (a b : list string) : bool :=
  match a, b with
  | [], [] => true
  | x :: a', y :: b' => String.eqb x y && words_eqb a' b'
  | _, _ => false
  end.

(** The device a [catt -d <device> status] invocation asks about. *)
Definition status_query (e : event) : list string :=
  match e with
  | Spawn (c :: f :: device_name :: words) =>
      if words_eqb (c :: f :: words) ["catt"; "-d"; "status"]
      then [device_name] else []
  | _ => []
  end.

Definition status_queries (tr : list event) : list string :=
  flat_map status_query tr.

Definition is_stop (e : event) : bool :=
  match e with
  | Spawn (c :: f :: _ :: words) =>
      words_eqb (c :: f :: words) ["catt"; "-d"; "stop"]
  | _ => false
  end.

Definition is_sleep (e : event) : bool :=
  match e with
  | Sleep _ => true
  | _ => false
  end.

Definition is_warning (e : event) : bool :=
  match e with
  | Log WARNING _ => true
  | _ => false
  end.

Definition count (p : event -> bool) (tr : list event) : nat :=
  List.length (filter p tr).

(** The world just after a process was started with [argv]. *)
Definition after_spawn (argv : list string) (w : world) : world :=
  mkWorld (clock w) (S (spawned w)) (trace w ++ [Spawn argv]).

(** The notice that announces the pause after a sweep that stopped
    nothing. *)
Definition no_session_notice : event :=
  Log INFO "No active HA cast sessions found. Sleeping for 5 minutes...".

(** Every process the program starts exits, and does so within the ten
    seconds the program allows. *)
Definition responsive (env : oracle) : Prop :=
  forall n argv, exists dur rc out,
    env n argv = Started (Exits dur rc out) /\ (dur <= 10)%N.

(** The names the specification calls the standard severity names, in any
    letter case. *)
Definition severity_names : list string :=
  ["CRITICAL"; "FATAL"; "ERROR"; "WARNING"; "WARN"; "INFO"; "DEBUG"; "NOTSET"].

(** The names [__init__] takes for one of them: those whose [str.upper]
    is one. *)
Definition is_severity_name (s : text) : bool :=
  existsb (fun name => text_eqb (upper s) (text_of_string name))
    severity_names.

(** The names that are one of them in some letter case. *)
Definition is_standard_severity (s : text) : bool :=
  existsb (fun name => text_eqb (ascii_upper s) (text_of_string name))
    severity_names.

(** A configuration whose entries other than [logging_level] are as the
    configuration surface describes them. *)
Definition has_url (d : string * device_config) : bool :=
  match cfg_dashboard_url (snd d) with
  | Some _ => true
  | None => false
  end.

Definition parses (field : option text) : bool :=
  match field with
  | Some s => match strptime_HM s with Some _ => true | None => false end
  | None => false
  end.

Definition well_formed (cfg : config) : bool :=
  match cfg_cast_delay cfg, cfg_devices cfg with
  | Some _, Some devices =>
      parses (cfg_start_time cfg) && parses (cfg_end_time cfg)
      && forallb has_url devices
  | _, _ => false
  end.

Definition is_spawn (e : event) : bool :=
  match e with
  | Spawn _ => true
  | _ => false
  end.

(** [needle] is a substring of [hay]. *)
Definition occurs (needle hay : string) : Prop :=
  exists before after, hay = before +++ needle +++ after.

(** The four commands of the cast sequence, in their order. *)
Definition cast_commands (device_name url : string) : list (list string) :=
  [catt device_name ["stop"];
   catt device_name ["volume"; "0"];
   catt device_name ["cast_site"; url];
   catt device_name ["volume"; "50"]].


(** The exceptions the [except] clauses of [cast_dashboard] catch. *)
Definition caught_by_cast (e : exn) : bool :=
  isinstance e CalledProcessError || isinstance e ValueError
  || isinstance e AsyncioTimeoutError.

(** A process that is still running after the ten seconds the program
    waits. *)
Definition too_slow (p : behaviour) : bool :=
  match p with
  | Exits dur _ _ => (10 <? dur)%N
  | Hangs => true
  end.

(** The entry [__init__] makes of a configured device that has a URL. *)
Definition entry_of (item : string * device_config)
    : string * device_info :=
  (fst item,
   mkDevice (get_default (cfg_dashboard_url (snd item)) "")
            (get_default (cfg_dashboard_state_name (snd item)) "Dummy")).

(** The process starts the branch outside the window may make: a status
    query or a stop command; records and pauses are not restricted. *)
Definition status_or_stop (e : event) : bool :=
  match e with
  | Spawn _ => is_stop e || (0 <? List.length (status_query e))
  | _ => true
  end.

(** Two answers of the environment that differ at most in the return code
    of the process. *)
Definition same_but_returncode (a b : spawn_result) : Prop :=
  match a, b with
  | SpawnRaises e, SpawnRaises e' => e = e'
  | Started (Exits dur _ out), Started (Exits dur' _ out') =>
      dur = dur' /\ out = out'
  | Started Hangs, Started Hangs => True
  | _, _ => False
  end.

(** What [check_both_states] makes of the output of the status command,
    for a device with state token [token]. *)
Definition reports_playing (token : string) (out : option string) : bool :=
  match out with
  | Some text =>
      negb (String.eqb text "") && (str_in token text || str_in "PLAYING" text)
  | None => false
  end.

(* ================================================================== *)
(** * Scenarios                                                        *)
(* ================================================================== *)

Module Scenario.

Definition tv : device_info := mkDevice "http://ha.local/dash" "Dummy".

(** One device, a pause of 60 seconds between actions. *)
Definition one_tv (start_time end_time : time) : caster :=
  mkCaster [("tv", tv)] 60%N start_time end_time 5 30%N.

Definition night : caster := one_tv (mkTime 22 0 0 0) (mkTime 6 0 0 0).
Definition daytime : caster := one_tv (mkTime 8 0 0 0) (mkTime 20 0 0 0).

(** A fresh world at [h]:[m] on the clock. *)
Definition at_clock (h m : N) : world :=
  mkWorld (h * 3600 + m * 60)%N 0 [].

Definition is_status (argv : list string) : bool :=
  words_eqb argv (catt "tv" ["status"]).

Definition succeeds : spawn_result := Started (Exits 1%N 0 (Some "")).

(** The status command of the device fails on every attempt: it exits with
    code 1 and bytes that do not decode. *)
Definition status_always_fails : oracle :=
  fun _ argv => if is_status argv then Started (Exits 1%N 1 None) else succeeds.

(** The first status command fails, the later ones report playback. *)
Definition status_fails_once : oracle :=
  fun n argv =>
    if is_status argv then
      if n =? 0 then Started (Exits 1%N 1 None)
      else Started (Exits 1%N 0 (Some "State: PLAYING"))
    else succeeds.

(** The status command never exits. *)
Definition status_hangs : oracle :=
  fun _ argv => if is_status argv then Started Hangs else succeeds.

(** The dashboard is shown, and the stop command never exits. *)
Definition stop_hangs : oracle :=
  fun _ argv =>
    if is_status argv then Started (Exits 1%N 0 (Some "Dummy"))
    else if words_eqb argv (catt "tv" ["stop"]) then Started Hangs
    else succeeds.

(** Nothing is shown (the status text has neither token), and the stop
    command never exits. *)
Definition idle_stop_hangs : oracle :=
  fun _ argv =>
    if is_status argv then Started (Exits 1%N 0 (Some "idle"))
    else if words_eqb argv (catt "tv" ["stop"]) then Started Hangs
    else succeeds.

(** Nothing is shown, and the cast command exits with code 1. *)
Definition cast_fails : oracle :=
  fun _ argv =>
    if is_status argv then Started (Exits 1%N 0 (Some "idle"))
    else if words_eqb argv (catt "tv" ["cast_site"; dashboard_url tv])
         then Started (Exits 1%N 1 (Some ""))
    else succeeds.

(** Every command succeeds at once; the status text is that of an idle
    device, or shows the dashboard. *)
Definition idle : oracle :=
  fun _ argv =>
    if is_status argv then Started (Exits 1%N 0 (Some "idle")) else succeeds.

Definition silent : oracle :=
  fun _ argv => succeeds.

Definition showing_dashboard : oracle :=
  fun _ argv =>
    if is_status argv then Started (Exits 1%N 0 (Some "Dummy")) else succeeds.

(** Two devices with the state token [Dummy]; the status text of every
    device shows a volume and no token, and every command succeeds. *)
Definition hall : device_info := mkDevice "http://ha.local/hall" "Dummy".

Definition two_screens : caster :=
  mkCaster [("tv", tv); ("hall", hall)] 60 (mkTime 22 0 0 0) (mkTime 6 0 0 0)
           5 30.

Definition is_any_status (argv : list string) : bool :=
  match argv with
  | [c; f; _; word] => words_eqb [c; f; word] ["catt"; "-d"; "status"]
  | _ => false
  end.

Definition volume_only : oracle :=
  fun _ argv =>
    if is_any_status argv then Started (Exits 1%N 0 (Some "Volume: 40"))
    else succeeds.

Definition good_config (logging_level : option text) : config :=
  mkConfig (Some 60%N) (Some (text_of_string "22:00"))
           (Some (text_of_string "06:00"))
           (Some [("tv", mkDeviceConfig (Some "http://ha.local/dash") None)])
           logging_level.

(** The name [info] written with a dotless i (code point 305). *)
Definition dotless_info : text := 305%N :: text_of_string "nfo".

End Scenario.

(* ================================================================== *)
(** * The schedule window                                              *)
(* ================================================================== *)

Lemma strptime_constants :
  strptime_HM (text_of_string "23:59") = Some t_23_59 /\
  strptime_HM (text_of_string "00:00") = Some t_00_00.
Proof. split; reflexivity. Qed.

Lemma time_le_midnight (now : time) : time_le t_00_00 now = true.
Proof.
  destruct now as [h m s u]; unfold time_le, time_cmp; cbn.
  destruct h; cbn; [ | reflexivity ].
  destruct m; cbn; [ | reflexivity ].
  destruct s; cbn; [ | reflexivity ].
  destruct u; reflexivity.
Qed.

(** The second disjunct of the test in [start] does not look at the start
    of the window, and the first does not look at its end. *)
Lemma in_window_unfold (start_time end_time now : time) :
  in_window start_time end_time now =
  (time_le start_time now && time_le now t_23_59) || time_lt now end_time.
Proof. unfold in_window; now rewrite time_le_midnight. Qed.

(** On a window that wraps past midnight the test of [start] is the
    interval logic, up to the last minute of the day. *)
Lemma in_window_wrapping (start_time end_time now : time) :
  time_lt end_time start_time = true ->
  time_le now t_23_59 = true ->
  in_window start_time end_time now = window_reference start_time end_time now.
Proof.
  intros Hwrap Hday.
  rewrite in_window_unfold; unfold window_reference.
  now rewrite Hwrap, Hday, andb_true_r.
Qed.

(** C1.  The test at the top of each cycle of [start] is not the interval
    logic: with a window from 08:00 to 20:00, which does not wrap, the code
    classifies 21:00 as inside the window, and the interval logic as
    outside. *)
Theorem in_window_daytime_2100 :
  in_window (mkTime 8 0 0 0) (mkTime 20 0 0 0) (mkTime 21 0 0 0) = true /\
  window_reference (mkTime 8 0 0 0) (mkTime 20 0 0 0) (mkTime 21 0 0 0)
  = false.
Proof. split; reflexivity. Qed.

(** With that window every time of day up to 23:59:00 is inside for the
    code. *)
Lemma in_window_daytime_always (now : time) :
  time_le now t_23_59 = true ->
  in_window (mkTime 8 0 0 0) (mkTime 20 0 0 0) now = true.
Proof.
  intros Hday; rewrite in_window_unfold, Hday, andb_true_r.
  destruct (time_le (mkTime 8 0 0 0) now) eqn:Hle; [ reflexivity | ].
  cbn [orb]. destruct now as [h m s u].
  unfold time_le, time_lt, time_cmp in *.
  cbn [hour minute second microsecond] in *.
  destruct (Nat.compare_spec 8 h) as [E|L|G]; try discriminate.
  - destruct m as [|m]; cbn in Hle; [ | discriminate ].
    destruct s as [|s]; cbn in Hle; [ | discriminate ].
    destruct u; discriminate.
  - destruct (Nat.compare_spec h 20) as [E|L|G']; try reflexivity; lia.
Qed.

(** So with that window the loop casts at 21:00 to a device that shows
    nothing, where it should be stopping what is shown. *)
Lemma daytime_window_casts_at_2100 :
  status_queries
    (trace (snd (cycle Scenario.idle Scenario.daytime
                   (Scenario.at_clock 21 0))))
  = ["tv"; "tv"] /\
  count is_stop
    (trace (snd (cycle Scenario.idle Scenario.daytime
                   (Scenario.at_clock 21 0))))
  = 1 /\
  In (Spawn ["catt"; "-d"; "tv"; "cast_site"; "http://ha.local/dash"])
    (trace (snd (cycle Scenario.idle Scenario.daytime
                   (Scenario.at_clock 21 0)))).
Proof.
  split; [ reflexivity | split; [ reflexivity | ] ].
  vm_compute. repeat (first [ left; reflexivity | right ]).
Qed.

(** In the last minute of the day a wrapping window is closed for the
    code. *)
Lemma in_window_last_minute :
  in_window (mkTime 22 0 0 0) (mkTime 6 0 0 0) (mkTime 23 59 30 0) = false /\
  window_reference (mkTime 22 0 0 0) (mkTime 6 0 0 0) (mkTime 23 59 30 0)
  = true.
Proof. split; reflexivity. Qed.

(* ================================================================== *)
(** * Construction                                                     *)
(* ================================================================== *)

(** The names [getattr(logging, name, None)] maps to an [int] are the
    severity names. *)
Lemma severity_name_is_int (s : text) :
  is_severity_name s =
  match getattr_logging (upper s) with
  | Some (IntAttr _) => true
  | _ => false
  end.
Proof.
  unfold is_severity_name, severity_names, getattr_logging, logging_attributes.
  generalize (upper s); intros u; cbn [existsb attribute_get].
  repeat match goal with
         | |- context [text_eqb u ?name] => destruct (text_eqb u name)
         end;
    reflexivity.
Qed.

Lemma load_devices_total (devices : list (string * device_config)) :
  forallb has_url devices = true ->
  forall acc, exists device_map, load_devices devices acc = Ok device_map.
Proof.
  induction devices as [|[name d] rest IH]; intros Hall acc; cbn.
  - now exists acc.
  - cbn in Hall. apply andb_true_iff in Hall as [Hurl Hrest].
    unfold has_url in Hurl; cbn in Hurl.
    destruct (cfg_dashboard_url d) as [url|]; [ | discriminate ].
    cbn. apply IH, Hrest.
Qed.

(** An invalid level is only looked at after the other entries: whatever
    they are, construction does not return. *)
Lemma init_invalid_level (cfg : config) :
  is_severity_name (get_default (cfg_logging_level cfg) (text_of_string "info")) = false ->
  exists e, init cfg = Error e.
Proof.
  intros Hbad. rewrite severity_name_is_int in Hbad. unfold init.
  destruct (subscript (cfg_cast_delay cfg)); cbn; [ | eauto ].
  destruct (subscript (cfg_start_time cfg)); cbn; [ | eauto ].
  destruct (strptime_time _); cbn; [ | eauto ].
  destruct (subscript (cfg_end_time cfg)); cbn; [ | eauto ].
  destruct (strptime_time _); cbn; [ | eauto ].
  destruct (subscript (cfg_devices cfg)); cbn; [ | eauto ].
  destruct (load_devices _ _); cbn; [ | eauto ].
  destruct (getattr_logging _) as [[n|]|]; try discriminate; eauto.
Qed.

(** The level name [info] written with a dotless i is not a severity name
    in any letter case, and construction returns for it, with level 20:
    [str.upper] makes [INFO] of it. *)
Lemma init_accepts_dotless_info :
  is_standard_severity Scenario.dotless_info = false /\
  well_formed (Scenario.good_config (Some Scenario.dotless_info)) = true /\
  init (Scenario.good_config (Some Scenario.dotless_info))
  = Ok (Scenario.night, 20).
Proof. repeat split; vm_compute; reflexivity. Qed.

(** C10, as amended.  On a configuration whose other entries are well
    formed, construction raises [ValueError] when the [str.upper] of
    [logging_level] is not a severity name, before any object exists on
    which [start] could run, and it returns the object when it is one or
    when [logging_level] is absent (the default [info] gives level 20). *)
Theorem init_logging_level (cfg : config) :
  well_formed cfg = true ->
  (is_severity_name (get_default (cfg_logging_level cfg) (text_of_string "info")) = false ->
   init cfg = Error ValueError) /\
  (is_severity_name (get_default (cfg_logging_level cfg) (text_of_string "info")) = true ->
   exists self numeric_log_level,
     init cfg = Ok (self, numeric_log_level) /\
     max_retries self = 5 /\ retry_delay self = 30%N) /\
  (cfg_logging_level cfg = None -> exists self, init cfg = Ok (self, 20)).
Proof.
  intros Hwf. rewrite !severity_name_is_int.
  unfold well_formed, parses in Hwf.
  destruct cfg as [delay start_s end_s devices lvl]; cbn in *.
  destruct delay as [delay|]; [ | discriminate ].
  destruct devices as [devices|]; [ | discriminate ].
  destruct start_s as [start_s|]; [ | discriminate ].
  destruct end_s as [end_s|]; [ | now rewrite andb_false_r in Hwf ].
  unfold init, strptime_time; cbn.
  destruct (strptime_HM start_s) as [t1|]; [ | discriminate ].
  destruct (strptime_HM end_s) as [t2|]; [ | discriminate ].
  cbn in Hwf |- *.
  destruct (load_devices_total devices Hwf []) as [dm ->]; cbn.
  repeat split.
  - intros Hbad.
    destruct (getattr_logging _) as [[n|]|]; try discriminate; reflexivity.
  - intros Hgood.
    destruct (getattr_logging _) as [[n|]|]; try discriminate; eauto.
  - intros ->.
    match goal with
    | |- context [getattr_logging ?name] =>
        replace (getattr_logging name) with (Some (IntAttr 20))
          by (vm_compute; reflexivity)
    end.
    eauto.
Qed.

Lemma init_logging_level_witness :
  init (Scenario.good_config (Some (text_of_string "verbose"))) = Error ValueError /\
  (exists self, init (Scenario.good_config None) = Ok (self, 20)).
Proof.
  split.
  - apply (init_logging_level (Scenario.good_config (Some (text_of_string "verbose"))));
      reflexivity.
  - apply (init_logging_level (Scenario.good_config None)); reflexivity.
Defined.

(* ================================================================== *)
(** * Awaiting a process                                               *)
(* ================================================================== *)

Local Arguments String.append : simpl never.

Lemma elapsed_tick (w : world) (dur : N) :
  (clock (tick dur w) - clock w = dur)%N.
Proof. cbn; lia. Qed.

Lemma wait_for_wait (dur timeout : N) (rc : nat) (out : option string)
    (w : world) :
  wait_for (process_wait (Exits dur rc out)) timeout w =
  if (timeout <? dur)%N then (Raise AsyncioTimeoutError, tick timeout w)
  else (Ret rc, tick dur w).
Proof. unfold wait_for, process_wait. now rewrite elapsed_tick. Qed.

Lemma wait_for_communicate (dur timeout : N) (rc : nat)
    (out : option string) (w : world) :
  wait_for (process_communicate (Exits dur rc out)) timeout w =
  if (timeout <? dur)%N then (Raise AsyncioTimeoutError, tick timeout w)
  else (Ret out, tick dur w).
Proof. unfold wait_for, process_communicate. now rewrite elapsed_tick. Qed.

(** Under [wait_for] a process that never exits costs the timeout and
    raises [asyncio.TimeoutError]; awaited directly it stalls the
    coroutine. *)
Lemma wait_for_hangs (timeout : N) (w : world) :
  wait_for (process_wait Hangs) timeout w
  = (Raise AsyncioTimeoutError, tick timeout w) /\
  process_wait Hangs w = (Stall, w).
Proof. split; reflexivity. Qed.

(* ================================================================== *)
(** * The status checks                                                *)
(* ================================================================== *)

(** What [check_status] does, by what the environment answers. *)
Lemma check_status_cases (env : oracle) (device_name state : string)
    (w : world) :
  check_status env device_name state w =
  let w1 := after_spawn (catt device_name ["status"]) w in
  match env (spawned w) (catt device_name ["status"]) with
  | SpawnRaises e =>
      if isinstance e CalledProcessError then
        (Ret PyNone,
         record_event (Log ERROR ("Error checking " +++ state
           +++ " state for " +++ device_name +++ ": " +++ exn_name e)) w1)
      else if isinstance e TimeoutExpired then
        (Ret PyNone,
         record_event (Log ERROR ("Timeout checking " +++ state
           +++ " state for " +++ device_name +++ ": " +++ exn_name e)) w1)
      else if isinstance e ValueError then
        (Ret PyNone,
         record_event (Log ERROR ("Invalid file descriptor for "
           +++ device_name +++ ": " +++ exn_name e)) w1)
      else (Raise e, w1)
  | Started (Exits dur _ out) =>
      if (10 <? dur)%N then (Raise AsyncioTimeoutError, tick 10 w1)
      else
        match out with
        | Some text => (Ret (PyStr text), tick dur w1)
        | None =>
            (Ret PyNone,
             record_event (Log ERROR ("Invalid file descriptor for "
               +++ device_name +++ ": " +++ exn_name UnicodeDecodeError))
               (tick dur w1))
        end
  | Started Hangs => (Raise AsyncioTimeoutError, tick 10 w1)
  end.
Proof.
  unfold check_status, try_except, bind, create_subprocess_exec.
  fold (after_spawn (catt device_name ["status"]) w).
  destruct (env (spawned w) (catt device_name ["status"])) as [e|[dur rc out|]].
  - destruct e; reflexivity.
  - rewrite wait_for_communicate.
    destruct (10 <? dur)%N; [ reflexivity | ].
    destruct out; reflexivity.
  - reflexivity.
Qed.

(** A status check that returns gives the status text or [None]. *)
Lemma check_status_value (env : oracle) (device_name state : string)
    (w w1 : world) (v : pyval) :
  check_status env device_name state w = (Ret v, w1) ->
  v = PyNone \/ exists text, v = PyStr text.
Proof.
  rewrite check_status_cases. cbn zeta.
  destruct (env (spawned w) (catt device_name ["status"]))
    as [e|[dur rc out|]].
  - destruct (isinstance e CalledProcessError);
      [ | destruct (isinstance e TimeoutExpired);
          [ | destruct (isinstance e ValueError) ] ];
      intros [= <- <-]; eauto.
  - destruct (10 <? dur)%N; [ | destruct out ]; intros [= <- <-]; eauto.
  - discriminate.
Qed.

(** [check_both_states] hands a [bool] to its caller, whatever the status
    check gave it. *)
Lemma check_both_states_bool (env : oracle) (self : caster)
    (device_name : string) (w w1 : world) (v : pyval) :
  check_both_states env self device_name w = (Ret v, w1) ->
  exists b, v = PyBool b.
Proof.
  unfold check_both_states, getitem, bind.
  destruct (dict_get device_name (device_map self)) as [info|];
    [ | discriminate ].
  cbn [ret].
  destruct (check_status env device_name (dashboard_state_name info) w)
    as [[[|b|text]|e|] w0]; try discriminate.
  - cbn. intros [= <- <-]. eauto.
  - destruct b; cbn; [ discriminate | ]. intros [= <- <-]. eauto.
  - cbn. destruct (String.eqb text ""); cbn; intros [= <- <-]; eauto.
Qed.

(** C3.  [check_both_states] returns a [bool] and never [None]; a status
    check that failed ([None]) or gave empty output makes it return
    [False], the value it also returns for a status text with neither
    token in it; so the test [is None] in the loop of [start] is never
    true: the loop makes one pass, whatever number of retries is left, and
    never runs out of retries. *)
Theorem check_both_states_never_None (env : oracle) (self : caster)
    (device_name : string) (info : device_info) (w : world) :
  dict_get device_name (device_map self) = Some info ->
  (forall v w1,
      check_both_states env self device_name w = (Ret v, w1) ->
      is_None v = false /\ exists b, v = PyBool b) /\
  (forall v w1,
      check_status env device_name (dashboard_state_name info) w
      = (Ret v, w1) ->
      v = PyNone \/ v = PyStr "" ->
      check_both_states env self device_name w = (Ret (PyBool false), w1)) /\
  (forall v w1,
      check_status env device_name (dashboard_state_name info) w
      = (Ret v, w1) ->
      exists b w2,
        check_both_states env self device_name w = (Ret (PyBool b), w2)) /\
  (forall text w1,
      check_status env device_name (dashboard_state_name info) w
      = (Ret (PyStr text), w1) ->
      str_in (dashboard_state_name info) text = false ->
      str_in "PLAYING" text = false ->
      fst (check_both_states env self device_name w) = Ret (PyBool false)) /\
  (forall remaining retry_count,
      retry_loop env self device_name info (S remaining) retry_count w
      = retry_loop env self device_name info 1 0 w /\
      fst (retry_loop env self device_name info (S remaining) retry_count w)
      <> Ret false).
Proof.
  intros Hget.
  split; [ | split; [ | split; [ | split ] ] ];
    [ | | | | intros remaining retry_count; split ].
  - intros v w1 Hret.
    destruct (check_both_states_bool _ _ _ _ _ _ Hret) as [b ->]. eauto.
  - intros v w1 Hstatus Hv.
    unfold check_both_states, getitem, bind. rewrite Hget. cbn [ret].
    rewrite Hstatus. destruct Hv as [-> | ->]; reflexivity.
  - intros v w1 Hstatus.
    pose proof (check_status_value _ _ _ _ _ _ Hstatus) as Hvalue.
    unfold check_both_states, getitem, bind. rewrite Hget. cbn [ret].
    rewrite Hstatus. destruct Hvalue as [Hv|[text Hv]]; subst v.
    + cbn. do 2 eexists; reflexivity.
    + cbn [is_None truthy orb].
      destruct (String.eqb text ""); cbn; do 2 eexists; reflexivity.
  - intros text w1 Hstatus Hdash Hmedia.
    unfold check_both_states, getitem, bind. rewrite Hget. cbn [ret].
    rewrite Hstatus. cbn [is_None truthy orb].
    destruct (String.eqb text ""); [ reflexivity | ].
    cbn. now rewrite Hdash, Hmedia.
  - cbn [retry_loop]. unfold bind.
    destruct (check_both_states env self device_name w) as [[v|e|] w1] eqn:E;
      try reflexivity.
    destruct (check_both_states_bool _ _ _ _ _ _ E) as [b ->]. reflexivity.
  - cbn [retry_loop]. unfold bind.
    destruct (check_both_states env self device_name w) as [[v|e|] w1] eqn:E;
      cbn [fst]; try discriminate.
    destruct (check_both_states_bool _ _ _ _ _ _ E) as [b ->]. cbn [is_None].
    destruct (check_both_states env self device_name w1) as [[v2|e|] w2];
      cbn [fst]; try discriminate.
    destruct (truthy v2).
    + destruct (log _ _ w2) as [[[]|e|] w3]; cbn; discriminate.
    + destruct (log _ _ w2) as [[[]|e|] w3]; cbn [fst]; try discriminate.
      destruct (cast_dashboard _ _ _ w3) as [[[]|e|] w4]; cbn; discriminate.
Qed.

Lemma check_both_states_never_None_witness :
  check_both_states Scenario.status_always_fails Scenario.night "tv"
    (Scenario.at_clock 23 0)
  = (Ret (PyBool false),
     snd (check_status Scenario.status_always_fails "tv" "Dummy"
            (Scenario.at_clock 23 0))).
Proof.
  apply (check_both_states_never_None Scenario.status_always_fails
           Scenario.night "tv" Scenario.tv (Scenario.at_clock 23 0)
           eq_refl) with (v := PyNone).
  - reflexivity.
  - left; reflexivity.
Defined.

(* ================================================================== *)
(** * Failures of the status check                                     *)
(* ================================================================== *)

(** A status command that outlives the ten seconds, or never exits, makes
    [check_status] raise: no clause of its [try] names
    [asyncio.TimeoutError]. *)
Lemma check_status_timeout_escapes (env : oracle) (device_name state : string)
    (w : world) (p : behaviour) :
  env (spawned w) (catt device_name ["status"]) = Started p ->
  match p with
  | Exits dur _ _ => (10 < dur)%N
  | Hangs => True
  end ->
  fst (check_status env device_name state w) = Raise AsyncioTimeoutError.
Proof.
  intros Henv Hslow. rewrite check_status_cases, Henv. cbn zeta.
  destruct p as [dur rc out|]; [ | reflexivity ].
  apply N.ltb_lt in Hslow. now rewrite Hslow.
Qed.

(** Output that does not decode is caught, as a [ValueError], and becomes
    [None] with an error record. *)
Lemma check_status_decode_failure (env : oracle) (device_name state : string)
    (w : world) (dur : N) (rc : nat) :
  env (spawned w) (catt device_name ["status"]) = Started (Exits dur rc None) ->
  (dur <= 10)%N ->
  exists msg,
    check_status env device_name state w =
    (Ret PyNone,
     record_event (Log ERROR msg)
       (tick dur (after_spawn (catt device_name ["status"]) w))).
Proof.
  intros Henv Hfast. rewrite check_status_cases, Henv. cbn zeta.
  apply N.ltb_ge in Hfast. rewrite Hfast. eauto.
Qed.

(** A command that exits with a code other than zero is not a failure for
    [check_status]: its output is returned as it is. *)
Lemma check_status_ignores_returncode (env : oracle)
    (device_name state text : string) (w : world) (dur : N) (rc : nat) :
  env (spawned w) (catt device_name ["status"])
  = Started (Exits dur rc (Some text)) ->
  (dur <= 10)%N ->
  check_status env device_name state w =
  (Ret (PyStr text), tick dur (after_spawn (catt device_name ["status"]) w)).
Proof.
  intros Henv Hfast. rewrite check_status_cases, Henv. cbn zeta.
  apply N.ltb_ge in Hfast. now rewrite Hfast.
Qed.

(** C4.  A status command that times out is not caught: [check_status]
    raises [asyncio.TimeoutError], and the exception leaves [start], inside
    the window (23:00) and outside it (12:00); the loop does not reach a
    second cycle. *)
Theorem status_timeout_ends_loop :
  fst (check_status Scenario.status_hangs "tv" "Dummy" (Scenario.at_clock 23 0))
  = Raise AsyncioTimeoutError /\
  (forall n,
      start_cycles Scenario.status_hangs Scenario.night (S n)
        (Scenario.at_clock 23 0)
      = (Raise AsyncioTimeoutError,
         mkWorld 82810 1 [Spawn ["catt"; "-d"; "tv"; "status"]])) /\
  (forall n,
      fst (start_cycles Scenario.status_hangs Scenario.night (S n)
             (Scenario.at_clock 12 0))
      = Raise AsyncioTimeoutError).
Proof.
  split; [ reflexivity | split ]; intros n; reflexivity.
Qed.

(* ================================================================== *)
(** * The evaluation of one device inside the window                   *)
(* ================================================================== *)

(** C2.  A device whose status command fails on every attempt: the
    evaluation makes two status queries, not five, never pauses for
    [retry_delay], logs no exhaustion, and issues the four commands of the
    cast sequence. *)
Theorem failing_device_is_cast :
  inside_device Scenario.status_always_fails Scenario.night
    ("tv", Scenario.tv) (Scenario.at_clock 23 0)
  = (Ret tt,
     mkWorld 82866 6
       [Spawn ["catt"; "-d"; "tv"; "status"];
        Log ERROR "Invalid file descriptor for tv: UnicodeDecodeError";
        Spawn ["catt"; "-d"; "tv"; "status"];
        Log ERROR "Invalid file descriptor for tv: UnicodeDecodeError";
        Log INFO "HA Dashboard (or media) is NOT playing on tv!";
        Log INFO "Casting dashboard to tv";
        Spawn ["catt"; "-d"; "tv"; "stop"];
        Spawn ["catt"; "-d"; "tv"; "volume"; "0"];
        Spawn ["catt"; "-d"; "tv"; "cast_site"; "http://ha.local/dash"];
        Spawn ["catt"; "-d"; "tv"; "volume"; "50"];
        Sleep 60]).
Proof. reflexivity. Qed.

(** C7.  A device whose first status command fails and whose second
    reports playback: two status queries and no cast command, but no pause
    of [retry_delay] between the two queries: the only pause is the
    [cast_delay] after the evaluation. *)
Theorem failed_then_active_no_pause :
  inside_device Scenario.status_fails_once Scenario.night
    ("tv", Scenario.tv) (Scenario.at_clock 23 0)
  = (Ret tt,
     mkWorld 82862 2
       [Spawn ["catt"; "-d"; "tv"; "status"];
        Log ERROR "Invalid file descriptor for tv: UnicodeDecodeError";
        Spawn ["catt"; "-d"; "tv"; "status"];
        Log DEBUG ("Status output for tv when checking for dashboard "
                     +++ "state 'Dummy': State: PLAYING");
        Log INFO "HA Dashboard (or media) is playing on tv...";
        Sleep 60]).
Proof. reflexivity. Qed.

(* ================================================================== *)
(** * The cast sequence                                                *)
(* ================================================================== *)

(** When every command exits in time, with whatever return code, the cast
    sequence is the four commands in order. *)
Lemma cast_dashboard_commands (env : oracle) (device_name url : string)
    (w : world) :
  responsive env ->
  exists w',
    cast_dashboard env device_name url w = (Ret tt, w') /\
    spawned w' = 4 + spawned w /\
    trace w' = trace w ++
      [Log INFO ("Casting dashboard to " +++ device_name);
       Spawn (catt device_name ["stop"]);
       Spawn (catt device_name ["volume"; "0"]);
       Spawn (catt device_name ["cast_site"; url]);
       Spawn (catt device_name ["volume"; "50"])].
Proof.
  intros Henv.
  unfold cast_dashboard, try_except, bind, log, emit, create_subprocess_exec.
  cbn [record_event clock spawned trace].
  destruct (Henv (spawned w) (catt device_name ["stop"]))
    as (d1 & r1 & o1 & -> & H1).
  rewrite wait_for_wait. apply N.ltb_ge in H1. rewrite H1.
  cbn [tick clock spawned trace].
  destruct (Henv (S (spawned w)) (catt device_name ["volume"; "0"]))
    as (d2 & r2 & o2 & -> & H2).
  rewrite wait_for_wait. apply N.ltb_ge in H2. rewrite H2.
  cbn [tick clock spawned trace].
  destruct (Henv (S (S (spawned w))) (catt device_name ["cast_site"; url]))
    as (d3 & r3 & o3 & -> & H3).
  rewrite wait_for_wait. apply N.ltb_ge in H3. rewrite H3.
  cbn [tick clock spawned trace].
  destruct (Henv (S (S (S (spawned w)))) (catt device_name ["volume"; "50"]))
    as (d4 & r4 & o4 & -> & H4).
  rewrite wait_for_wait. apply N.ltb_ge in H4. rewrite H4.
  cbn [tick clock spawned trace ret].
  eexists; split; [ reflexivity | ]. cbn [tick spawned trace].
  split; [ reflexivity | ].
  now rewrite <- !app_assoc.
Qed.

(** A command of the sequence that outlives its ten seconds ends the
    sequence: here the stop command never exits, the timeout is recorded
    and no later command is started. *)
Lemma cast_dashboard_timeout_aborts :
  cast_dashboard Scenario.idle_stop_hangs "tv" "http://ha.local/dash"
    (Scenario.at_clock 23 0)
  = (Ret tt,
     mkWorld 82810 1
       [Log INFO "Casting dashboard to tv";
        Spawn ["catt"; "-d"; "tv"; "stop"];
        Log ERROR "Timeout casting dashboard to tv: TimeoutError"]).
Proof. reflexivity. Qed.

(** C8.  The cast command (the third of the sequence) exits with code 1:
    the sequence goes on to the fourth command, [volume 50], and records no
    failure. *)
Theorem failed_cast_does_not_abort :
  cast_dashboard Scenario.cast_fails "tv" "http://ha.local/dash"
    (Scenario.at_clock 23 0)
  = (Ret tt,
     mkWorld 82804 4
       [Log INFO "Casting dashboard to tv";
        Spawn ["catt"; "-d"; "tv"; "stop"];
        Spawn ["catt"; "-d"; "tv"; "volume"; "0"];
        Spawn ["catt"; "-d"; "tv"; "cast_site"; "http://ha.local/dash"];
        Spawn ["catt"; "-d"; "tv"; "volume"; "50"]]) /\
  Scenario.cast_fails 2 ["catt"; "-d"; "tv"; "cast_site"; "http://ha.local/dash"]
  = Started (Exits 1 1 (Some "")).
Proof. split; reflexivity. Qed.

(* ================================================================== *)
(** * Outside the window                                               *)
(* ================================================================== *)

(** C5.  Outside the window (12:00) the stop command is awaited without
    [wait_for]: when it never exits the cycle never resumes.  The stop
    command of the cast sequence, under its timeout of ten seconds, lets
    the same cycle finish inside the window (23:00). *)
Theorem outside_stop_unbounded :
  cycle Scenario.stop_hangs Scenario.night (Scenario.at_clock 12 0)
  = (Stall,
     mkWorld 43201 2
       [Log INFO ("Local time is outside of allowed range for casting the "
                    +++ "screen. Checking for any active HA cast sessions...");
        Spawn ["catt"; "-d"; "tv"; "status"];
        Log INFO "HA Dashboard is currently being cast on tv. Stopping...";
        Spawn ["catt"; "-d"; "tv"; "stop"]]) /\
  fst (cycle Scenario.idle_stop_hangs Scenario.night (Scenario.at_clock 23 0))
  = Ret tt.
Proof. split; reflexivity. Qed.

Lemma status_queries_app (a b : list event) :
  status_queries (a ++ b) = status_queries a ++ status_queries b.
Proof. apply flat_map_app. Qed.

Lemma count_app (p : event -> bool) (a b : list event) :
  count p (a ++ b) = count p a + count p b.
Proof. unfold count. now rewrite filter_app, length_app. Qed.

Lemma dict_get_In {V} (k : string) (v : V) (d : list (string * V)) :
  In (k, v) d -> exists v', dict_get k d = Some v'.
Proof.
  induction d as [|[k' v'] rest IH]; intros Hin; [ contradiction | ].
  cbn. destruct (String.eqb_spec k k') as [|Hne]; [ eauto | ].
  destruct Hin as [[= -> ->]|Hin]; [ now elim Hne | now apply IH ].
Qed.

(** A status check starts one process, the status command of the device,
    and adds at most an error record. *)
Lemma check_status_effect (env : oracle) (device_name state : string)
    (w w1 : world) (r : outcome pyval) :
  check_status env device_name state w = (r, w1) ->
  spawned w1 = S (spawned w) /\
  exists logs,
    trace w1 = trace w ++ Spawn (catt device_name ["status"]) :: logs /\
    (logs = [] \/ exists msg, logs = [Log ERROR msg]).
Proof.
  rewrite check_status_cases. cbn zeta.
  destruct (env (spawned w) (catt device_name ["status"]))
    as [e|[dur rc out|]].
  - destruct (isinstance e CalledProcessError);
      [ | destruct (isinstance e TimeoutExpired);
          [ | destruct (isinstance e ValueError) ] ];
      intros [= <- <-]; cbn; (split; [ reflexivity | ]);
      rewrite <- ?app_assoc; (eexists; split; [ reflexivity | eauto ]).
  - destruct (10 <? dur)%N; [ | destruct out ];
      intros [= <- <-]; cbn; (split; [ reflexivity | ]);
      rewrite <- ?app_assoc; (eexists; split; [ reflexivity | eauto ]).
  - intros [= <- <-]; cbn; split; [ reflexivity | ].
    exists []; eauto.
Qed.

(** The verdict of [check_dashboard_state] is the status text itself: it
    counts as active as soon as it is not empty, with or without the state
    token of the device in it. *)
Lemma check_dashboard_state_text (env : oracle) (self : caster)
    (device_name : string) (w w1 : world) (state : pyval) :
  check_dashboard_state env self device_name w = (Ret state, w1) ->
  state = PyNone \/ exists text, state = PyStr text.
Proof.
  unfold check_dashboard_state, getitem, bind.
  destruct (dict_get device_name (device_map self)) as [info|];
    [ cbn [ret] | discriminate ].
  apply check_status_value.
Qed.

(** What one pass of the sweep adds to the trace when it returns: the
    status query, then a stop command and a pause, or a stop command that
    raised [CalledProcessError], or nothing but a record. *)
Lemma outside_device_effect (env : oracle) (self : caster)
    (ha_cast_active active : bool) (device_name : string) (info : device_info)
    (w w' : world) :
  outside_device env self ha_cast_active (device_name, info) w
  = (Ret active, w') ->
  exists logs rest,
    trace w' = trace w ++ Spawn (catt device_name ["status"]) :: logs ++ rest /\
    (logs = [] \/ exists msg, logs = [Log ERROR msg]) /\
    ((active = true /\ exists msg,
        rest = [Log INFO msg; Spawn (catt device_name ["stop"]);
                Sleep (cast_delay self)]) \/
     (active = ha_cast_active /\ exists msg msg',
        rest = [Log INFO msg; Spawn (catt device_name ["stop"]);
                Log ERROR msg']) \/
     (active = ha_cast_active /\ exists msg, rest = [Log INFO msg])).
Proof.
  unfold outside_device, check_dashboard_state, getitem, bind.
  destruct (dict_get device_name (device_map self)) as [info'|];
    [ cbn [ret] | discriminate ].
  destruct (check_status env device_name (dashboard_state_name info') w)
    as [[state|e|] w1] eqn:Hstatus; try discriminate.
  apply check_status_effect in Hstatus as (Hsp & logs & Htr & Hlogs).
  destruct (truthy state).
  - unfold log, emit, try_except, bind, create_subprocess_exec.
    cbn [record_event clock spawned trace].
    destruct (env (spawned w1) (catt device_name ["stop"]))
      as [e|[dur rc out|]].
    + destruct (isinstance e CalledProcessError); [ | discriminate ].
      cbn. intros [= <- <-]. exists logs. eexists. cbn.
      rewrite Htr, <- !app_assoc. cbn.
      split; [ reflexivity | split; [ assumption | ] ].
      right; left. eauto.
    + cbn. intros [= <- <-]. exists logs. eexists. cbn.
      rewrite Htr, <- !app_assoc. cbn.
      split; [ reflexivity | split; [ assumption | ] ].
      left. eauto.
    + discriminate.
  - cbn. intros [= <- <-]. exists logs. eexists. cbn.
    rewrite Htr, <- !app_assoc. cbn.
    split; [ reflexivity | split; [ assumption | ] ].
    right; right. eauto.
Qed.

Lemma outside_device_queries (env : oracle) (self : caster)
    (ha_cast_active active : bool) (device_name : string) (info : device_info)
    (w w' : world) :
  outside_device env self ha_cast_active (device_name, info) w
  = (Ret active, w') ->
  status_queries (trace w') = status_queries (trace w) ++ [device_name].
Proof.
  intros Hdev.
  apply outside_device_effect in Hdev as (logs & rest & -> & Hlogs & Hrest).
  rewrite status_queries_app. f_equal.
  destruct Hlogs as [->|[msg ->]];
    destruct Hrest as [[_ [m ->]]|[[_ (m & m' & ->)]|[_ [m ->]]]];
    reflexivity.
Qed.

(** The sweep asks the devices in table order. *)
Lemma outside_sweep_order (env : oracle) (self : caster)
    (items : list (string * device_info)) :
  forall (ha_cast_active active : bool) (w w' : world),
    outside_sweep env self items ha_cast_active w = (Ret active, w') ->
    status_queries (trace w') = status_queries (trace w) ++ map fst items.
Proof.
  induction items as [|[device_name info] rest IH];
    intros flag active w w'; cbn [outside_sweep map fst].
  - intros [= <- <-]. now rewrite app_nil_r.
  - unfold bind.
    destruct (outside_device env self flag (device_name, info) w)
      as [[flag1|e|] w1] eqn:Hdev; try discriminate.
    intros Hrest. apply IH in Hrest. rewrite Hrest.
    rewrite (outside_device_queries _ _ _ _ _ _ _ _ Hdev).
    now rewrite <- app_assoc.
Qed.

(** What the loop outside the window does with the answer of
    [check_dashboard_state]: when the answer counts as true the device gets
    one stop command followed by one pause of [cast_delay]; when it does
    not, no command and no pause, only a record; and the sweep asks the
    devices in table order. *)
Lemma outside_device_stop_and_pause (env : oracle) (self : caster)
    (ha_cast_active : bool) (device_name : string) (info : device_info)
    (w w1 : world) (state : pyval) :
  check_dashboard_state env self device_name w = (Ret state, w1) ->
  (truthy state = true ->
   forall dur rc out,
     env (spawned w1) (catt device_name ["stop"])
     = Started (Exits dur rc out) ->
     exists w2,
       outside_device env self ha_cast_active (device_name, info) w
       = (Ret true, w2) /\
       spawned w2 = S (spawned w1) /\
       trace w2 = trace w1 ++
         [Log INFO ("HA Dashboard is currently being cast on "
                      +++ device_name +++ ". Stopping...");
          Spawn (catt device_name ["stop"]);
          Sleep (cast_delay self)]) /\
  (truthy state = false ->
   exists w2,
     outside_device env self ha_cast_active (device_name, info) w
     = (Ret ha_cast_active, w2) /\
     spawned w2 = spawned w1 /\
     clock w2 = clock w1 /\
     trace w2 = trace w1 ++
       [Log INFO ("HA Dashboard is NOT currently being cast on "
                    +++ device_name +++ ". Skipping...")]) /\
  (forall items active w0 w',
      outside_sweep env self items ha_cast_active w0 = (Ret active, w') ->
      status_queries (trace w') = status_queries (trace w0) ++ map fst items).
Proof.
  intros Hstate. split; [ | split ].
  - intros Hactive dur rc out Hstop.
    unfold outside_device, bind. rewrite Hstate, Hactive.
    unfold log, emit, try_except, bind, create_subprocess_exec.
    cbn [record_event clock spawned trace]. rewrite Hstop.
    cbn. eexists; split; [ reflexivity | ]. cbn.
    split; [ reflexivity | ]. now rewrite <- !app_assoc.
  - intros Hidle.
    unfold outside_device, bind. rewrite Hstate, Hidle.
    cbn. eexists; split; [ reflexivity | ]. cbn. auto.
  - intros items active w0 w'. apply outside_sweep_order.
Qed.

Lemma outside_device_stop_and_pause_witness :
  exists w2,
    outside_device Scenario.showing_dashboard Scenario.night false
      ("tv", Scenario.tv) (Scenario.at_clock 12 0)
    = (Ret true, w2) /\
    spawned w2 = 2 /\
    trace w2 =
      [Spawn ["catt"; "-d"; "tv"; "status"];
       Log INFO "HA Dashboard is currently being cast on tv. Stopping...";
       Spawn ["catt"; "-d"; "tv"; "stop"];
       Sleep 60].
Proof.
  destruct (outside_device_stop_and_pause Scenario.showing_dashboard
              Scenario.night false "tv" Scenario.tv (Scenario.at_clock 12 0)
              (mkWorld 43201 1 [Spawn ["catt"; "-d"; "tv"; "status"]])
              (PyStr "Dummy") eq_refl) as [Hactive _].
  exact (Hactive eq_refl 1%N 0 (Some "") eq_refl).
Defined.

(** C6.  Outside the window (12:00), a device whose status text is
    [Volume: 40], without its state token [Dummy], is not showing the
    dashboard, and it still gets a stop command and a pause of
    [cast_delay]: [check_dashboard_state] hands the status text back
    without looking for the token, and any text that is not empty counts
    as active. *)
Theorem outside_stops_device_without_token :
  str_in (dashboard_state_name Scenario.tv) "Volume: 40" = false /\
  outside_device Scenario.volume_only Scenario.night false
    ("tv", Scenario.tv) (Scenario.at_clock 12 0)
  = (Ret true,
     mkWorld 43262 2
       [Spawn ["catt"; "-d"; "tv"; "status"];
        Log INFO "HA Dashboard is currently being cast on tv. Stopping...";
        Spawn ["catt"; "-d"; "tv"; "stop"];
        Sleep 60]).
Proof. split; reflexivity. Qed.

(** In an environment where every process exits in time, one pass of the
    sweep returns; it has paused exactly when it has issued a stop command,
    and then the flag is set. *)
Lemma outside_device_responsive (env : oracle) (self : caster)
    (ha_cast_active : bool) (device_name : string) (info : device_info)
    (w : world) :
  responsive env ->
  (exists info', dict_get device_name (device_map self) = Some info') ->
  exists active w' added,
    outside_device env self ha_cast_active (device_name, info) w
    = (Ret active, w') /\
    trace w' = trace w ++ added /\
    status_queries added = [device_name] /\
    count is_sleep added = count is_stop added /\
    active = ha_cast_active || negb (count is_stop added =? 0).
Proof.
  intros Henv [info' Hget].
  unfold outside_device, check_dashboard_state, getitem, bind.
  rewrite Hget. cbn [ret]. rewrite check_status_cases.
  destruct (Henv (spawned w) (catt device_name ["status"]))
    as (dur & rc & out & -> & Hdur).
  cbn zeta. apply N.ltb_ge in Hdur. rewrite Hdur.
  assert (Hstop : forall w1 : world,
             spawned w1 = S (spawned w) ->
             exists d r o,
               env (spawned w1) (catt device_name ["stop"])
               = Started (Exits d r o)).
  { intros w1 _.
    destruct (Henv (spawned w1) (catt device_name ["stop"]))
      as (d & r & o & -> & _). eauto. }
  destruct out as [text|]; [ destruct (String.eqb text "") eqn:Hempty | ].
  - cbn [truthy]. rewrite Hempty. cbn.
    do 3 eexists. split; [ reflexivity | ]. cbn.
    rewrite <- app_assoc. split; [ reflexivity | ].
    split; [ reflexivity | ]. split; [ reflexivity | ].
    now rewrite orb_false_r.
  - cbn [truthy]. rewrite Hempty. cbn [negb].
    unfold log, emit, try_except, bind, create_subprocess_exec.
    cbn [record_event tick after_spawn clock spawned trace].
    destruct (Henv (S (spawned w)) (catt device_name ["stop"]))
      as (d & r & o & -> & _).
    cbn. do 3 eexists. split; [ reflexivity | ]. cbn.
    rewrite <- !app_assoc. split; [ reflexivity | ].
    split; [ reflexivity | ]. split; [ reflexivity | ].
    now rewrite orb_true_r.
  - cbn. do 3 eexists. split; [ reflexivity | ]. cbn.
    rewrite <- !app_assoc. split; [ reflexivity | ].
    split; [ reflexivity | ]. split; [ reflexivity | ].
    now rewrite orb_false_r.
Qed.

Lemma some_stop (a b : nat) :
  negb (a + b =? 0) = negb (a =? 0) || negb (b =? 0).
Proof. destruct a, b; reflexivity. Qed.

Lemma outside_sweep_responsive (env : oracle) (self : caster)
    (items : list (string * device_info)) :
  responsive env ->
  (forall item, In item items ->
     exists info', dict_get (fst item) (device_map self) = Some info') ->
  forall (ha_cast_active : bool) (w : world),
  exists active w' added,
    outside_sweep env self items ha_cast_active w = (Ret active, w') /\
    trace w' = trace w ++ added /\
    status_queries added = map fst items /\
    count is_sleep added = count is_stop added /\
    active = ha_cast_active || negb (count is_stop added =? 0).
Proof.
  intros Henv. induction items as [|[device_name info] rest IH];
    intros Hkeys flag w; cbn [outside_sweep].
  - exists flag, w, []. rewrite app_nil_r, orb_false_r. repeat split.
  - unfold bind.
    destruct (outside_device_responsive env self flag device_name info w Henv)
      as (flag1 & w1 & added1 & -> & Htr1 & Hq1 & Hc1 & Hf1).
    { apply (Hkeys (device_name, info)). now left. }
    destruct (IH (fun item Hin => Hkeys item (or_intror Hin)) flag1 w1)
      as (flag2 & w2 & added2 & -> & Htr2 & Hq2 & Hc2 & Hf2).
    exists flag2, w2, (added1 ++ added2).
    split; [ reflexivity | ].
    rewrite Htr2, Htr1, <- app_assoc. split; [ reflexivity | ].
    rewrite status_queries_app, Hq1, Hq2. split; [ reflexivity | ].
    rewrite !count_app, Hc1, Hc2. split; [ reflexivity | ].
    now rewrite Hf2, Hf1, some_stop, orb_assoc.
Qed.

(** Outside the window, in an environment where every process exits in
    time, the cycle returns, and its events are the opening record, the
    events of the sweep over the devices in table order, one pause for each
    stop command inside the sweep, and after the sweep the notice and one
    pause of [cast_delay] exactly when the sweep issued no stop command. *)
Lemma outside_window_trailing_pause (env : oracle) (self : caster)
    (w : world) :
  responsive env ->
  exists w' opening sweep,
    outside_window env self w = (Ret tt, w') /\
    trace w' = trace w ++ Log INFO opening :: sweep ++
      (if count is_stop sweep =? 0
       then [no_session_notice; Sleep (cast_delay self)]
       else []) /\
    status_queries sweep = map fst (device_map self) /\
    count is_sleep sweep = count is_stop sweep.
Proof.
  intros Henv. unfold outside_window, bind, log, emit.
  set (w0 := record_event _ w).
  destruct (outside_sweep_responsive env self (device_map self) Henv) with
    (ha_cast_active := false) (w := w0)
    as (active & w1 & sweep & -> & Htr & Hq & Hc & ->).
  { intros [k v] Hin. cbn [fst]. eapply dict_get_In, Hin. }
  cbn [orb]. rewrite negb_involutive.
  destruct (count is_stop sweep =? 0) eqn:Hnone;
    eexists _, _, sweep; rewrite Hnone.
  - cbn. split; [ reflexivity | ]. cbn. rewrite Htr. subst w0. cbn.
    rewrite <- !app_assoc. cbn. auto.
  - cbn. split; [ reflexivity | ]. rewrite Htr. subst w0. cbn.
    rewrite <- !app_assoc, app_nil_r. cbn. auto.
Qed.

Lemma outside_window_trailing_pause_witness :
  exists w' opening sweep,
    outside_window Scenario.silent Scenario.night (Scenario.at_clock 12 0)
    = (Ret tt, w') /\
    trace w' = trace (Scenario.at_clock 12 0) ++ Log INFO opening :: sweep ++
      (if count is_stop sweep =? 0
       then [no_session_notice; Sleep (cast_delay Scenario.night)]
       else []) /\
    status_queries sweep = map fst (device_map Scenario.night) /\
    count is_sleep sweep = count is_stop sweep.
Proof.
  apply (outside_window_trailing_pause Scenario.silent Scenario.night
           (Scenario.at_clock 12 0)).
  intros n argv. exists 1%N, 0, (Some ""). split; [ reflexivity | ].
  now apply N.leb_le.
Defined.

(** C9.  Outside the window (12:00), two devices whose status text is
    [Volume: 40], without their state token [Dummy]: neither shows the
    dashboard, so none needs a stop, and the cycle still stops both, pauses
    once after each, and makes no pause after the sweep. *)
Theorem outside_sweep_without_dashboard :
  str_in (dashboard_state_name Scenario.tv) "Volume: 40" = false /\
  str_in (dashboard_state_name Scenario.hall) "Volume: 40" = false /\
  cycle Scenario.volume_only Scenario.two_screens (Scenario.at_clock 12 0)
  = (Ret tt,
     mkWorld 43324 4
       [Log INFO ("Local time is outside of allowed range for casting the "
                    +++ "screen. Checking for any active HA cast sessions...");
        Spawn ["catt"; "-d"; "tv"; "status"];
        Log INFO "HA Dashboard is currently being cast on tv. Stopping...";
        Spawn ["catt"; "-d"; "tv"; "stop"];
        Sleep 60;
        Spawn ["catt"; "-d"; "hall"; "status"];
        Log INFO "HA Dashboard is currently being cast on hall. Stopping...";
        Spawn ["catt"; "-d"; "hall"; "stop"];
        Sleep 60]).
Proof. repeat split; reflexivity. Qed.

(** The verdict does not look for the state token: outside the window
    (12:00) a device whose status text is [idle], without the token
    [Dummy], is stopped like one that shows the dashboard. *)
Lemma outside_idle_device_is_stopped :
  str_in (dashboard_state_name Scenario.tv) "idle" = false /\
  trace (snd (cycle Scenario.idle Scenario.night (Scenario.at_clock 12 0)))
  = [Log INFO ("Local time is outside of allowed range for casting the "
                 +++ "screen. Checking for any active HA cast sessions...");
     Spawn ["catt"; "-d"; "tv"; "status"];
     Log INFO "HA Dashboard is currently being cast on tv. Stopping...";
     Spawn ["catt"; "-d"; "tv"; "stop"];
     Sleep 60].
Proof. split; reflexivity. Qed.

(* ================================================================== *)
(** * One evaluation, at most one cast                                 *)
(* ================================================================== *)

Ltac answer env :=
  match goal with
  | |- context [env ?n ?argv] =>
      let e := fresh "e" in
      let dur := fresh "dur" in
      destruct (env n argv) as [e|[dur ? ?|]];
      [ destruct e
      | rewrite ?wait_for_wait, ?wait_for_communicate;
        destruct (10 <? dur)%N
      | ]
  end.

Ltac added_events :=
  intros [= <- <-]; eexists;
  (split; [ cbn; rewrite <- ?app_assoc; cbn; reflexivity | ]);
  repeat split; reflexivity.

(** However its commands end, the cast sequence starts the stop command
    once, and neither pauses nor asks for the status. *)
Lemma cast_dashboard_effect (env : oracle) (device_name url : string)
    (w w' : world) (r : outcome unit) :
  cast_dashboard env device_name url w = (r, w') ->
  exists added,
    trace w' = trace w ++ added /\
    count is_stop added = 1 /\
    count is_sleep added = 0 /\
    count is_warning added = 0 /\
    status_queries added = [].
Proof.
  unfold cast_dashboard, try_except, bind, log, emit, create_subprocess_exec.
  cbn [record_event clock spawned trace].
  answer env; try added_events.
  cbn [tick clock spawned trace].
  answer env; try added_events.
  cbn [tick clock spawned trace].
  answer env; try added_events.
  cbn [tick clock spawned trace].
  answer env; added_events.
Qed.

Lemma check_both_states_effect (env : oracle) (self : caster)
    (device_name : string) (w w' : world) (r : outcome pyval) :
  check_both_states env self device_name w = (r, w') ->
  exists added,
    trace w' = trace w ++ added /\
    count is_stop added = 0 /\
    count is_sleep added = 0 /\
    count is_warning added = 0.
Proof.
  unfold check_both_states, getitem, bind.
  destruct (dict_get device_name (device_map self)) as [info|].
  2:{ intros [= <- <-]. exists []. now rewrite app_nil_r. }
  cbn [ret]. rewrite check_status_cases. cbn zeta.
  destruct (env (spawned w) (catt device_name ["status"]))
    as [e|[dur rc out|]].
  - destruct e; added_events.
  - destruct (10 <? dur)%N; [ added_events | ].
    destruct out as [text|]; [ | added_events ].
    cbn [is_None truthy orb]. destruct (String.eqb text ""); added_events.
  - added_events.
Qed.

(** Inside the window the evaluation of one device starts the stop command
    of the cast sequence at most once, pauses at most once, and never
    records a retry. *)
Lemma inside_device_effect (env : oracle) (self : caster)
    (item : string * device_info) (w w' : world) (r : outcome unit) :
  inside_device env self item w = (r, w') ->
  exists added,
    trace w' = trace w ++ added /\
    count is_stop added <= 1 /\
    count is_sleep added <= 1 /\
    count is_warning added = 0.
Proof.
  destruct item as [device_name info]. unfold inside_device, bind.
  destruct (max_retries self) as [|remaining]; cbn [retry_loop].
  { cbn. intros [= <- <-]. eexists. split; [ reflexivity | ].
    cbn. repeat split; lia. }
  unfold bind.
  destruct (check_both_states env self device_name w)
    as [[first|e|] w1] eqn:Hfirst.
  2,3: apply check_both_states_effect in Hfirst
         as (a1 & Ht1 & Hs1 & Hp1 & Hw1);
       intros [= <- <-]; exists a1; repeat split; (assumption || lia).
  destruct (check_both_states_bool _ _ _ _ _ _ Hfirst) as [b ->].
  cbn [is_None].
  apply check_both_states_effect in Hfirst as (a1 & Ht1 & Hs1 & Hp1 & Hw1).
  destruct (check_both_states env self device_name w1)
    as [[second|e|] w2] eqn:Hsecond;
    apply check_both_states_effect in Hsecond
      as (a2 & Ht2 & Hs2 & Hp2 & Hw2).
  2,3: intros [= <- <-]; exists (a1 ++ a2);
       rewrite Ht2, Ht1, <- app_assoc, !count_app; repeat split; lia.
  destruct (truthy second).
  - cbn. intros [= <- <-]. eexists (a1 ++ a2 ++ [_; _]).
    cbn [trace tick record_event].
    rewrite Ht2, Ht1, <- !app_assoc. split; [ reflexivity | ].
    rewrite !count_app, Hs1, Hs2, Hp1, Hp2, Hw1, Hw2.
    cbn. repeat split; lia.
  - unfold log, emit. cbn [record_event].
    match goal with
    | |- context [cast_dashboard env ?d ?u ?w0] =>
        destruct (cast_dashboard env d u w0) as [[[]|e|] w3] eqn:Hcast;
        apply cast_dashboard_effect in Hcast
          as (a3 & Ht3 & Hs3 & Hp3 & Hw3 & _)
    end; cbn in Ht3 |- *; intros [= <- <-].
    + eexists (a1 ++ a2 ++ [_] ++ a3 ++ [_]).
      cbn [trace tick record_event].
      rewrite Ht3, Ht2, Ht1, <- !app_assoc. split; [ reflexivity | ].
      rewrite !count_app, Hs1, Hs2, Hs3, Hp1, Hp2, Hp3, Hw1, Hw2, Hw3.
      cbn. repeat split; lia.
    + eexists (a1 ++ a2 ++ [_] ++ a3).
      rewrite Ht3, Ht2, Ht1, <- !app_assoc. split; [ reflexivity | ].
      rewrite !count_app, Hs1, Hs2, Hs3, Hp1, Hp2, Hp3, Hw1, Hw2, Hw3.
      cbn. repeat split; lia.
    + eexists (a1 ++ a2 ++ [_] ++ a3).
      rewrite Ht3, Ht2, Ht1, <- !app_assoc. split; [ reflexivity | ].
      rewrite !count_app, Hs1, Hs2, Hs3, Hp1, Hp2, Hp3, Hw1, Hw2, Hw3.
      cbn. repeat split; lia.
Qed.

(* ================================================================== *)
(** * The order of times and the window, in general                     *)
(* ================================================================== *)

Ltac compare_fields :=
  repeat match goal with
         | H : context [Nat.compare ?x ?y] |- _ =>
             destruct (Nat.compare_spec x y); try discriminate H
         | |- context [Nat.compare ?x ?y] =>
             destruct (Nat.compare_spec x y)
         end.

(** [<=] and [<] on times are the two halves of a total order. *)
Lemma time_lt_not_le (a b : time) : time_lt a b = negb (time_le b a).
Proof.
  destruct a as [h m s u], b as [h' m' s' u'].
  unfold time_lt, time_le, time_cmp; cbn [hour minute second microsecond].
  compare_fields; subst; try reflexivity; lia.
Qed.

Lemma time_lt_le_trans (a b c : time) :
  time_lt a b = true -> time_le b c = true -> time_lt a c = true.
Proof.
  destruct a as [h m s u], b as [h' m' s' u'], c as [h2 m2 s2 u2].
  unfold time_lt, time_le, time_cmp; cbn [hour minute second microsecond].
  intros Hab Hbc.
  compare_fields; subst; try reflexivity; try discriminate; lia.
Qed.

Lemma time_le_lt_trans (a b c : time) :
  time_le a b = true -> time_lt b c = true -> time_lt a c = true.
Proof.
  destruct a as [h m s u], b as [h' m' s' u'], c as [h2 m2 s2 u2].
  unfold time_lt, time_le, time_cmp; cbn [hour minute second microsecond].
  intros Hab Hbc.
  compare_fields; subst; try reflexivity; try discriminate; lia.
Qed.

Lemma time_lt_le (a b : time) : time_lt a b = true -> time_le a b = true.
Proof. unfold time_lt, time_le. now destruct (time_cmp a b). Qed.

(** After 23:59:00 no time is before an end of window that is on a whole
    minute. *)
Lemma last_minute_not_before (end_time now : time) :
  time_le end_time t_23_59 = true ->
  time_le now t_23_59 = false ->
  time_lt now end_time = false.
Proof.
  intros Hend Hlate. rewrite time_lt_not_le.
  assert (Hlt : time_lt t_23_59 now = true)
    by now rewrite time_lt_not_le, Hlate.
  now rewrite (time_lt_le _ _ (time_le_lt_trans _ _ _ Hend Hlt)).
Qed.

(** X1.  For a window that does not wrap past midnight the test of [start]
    does not depend on the window: it is true up to 23:59:00 and false in
    the last minute of the day. *)
Theorem in_window_not_wrapping (start_time end_time now : time) :
  time_le start_time end_time = true ->
  time_le end_time t_23_59 = true ->
  in_window start_time end_time now = time_le now t_23_59.
Proof.
  intros Horder Hend. rewrite in_window_unfold.
  destruct (time_le now t_23_59) eqn:Hday.
  - rewrite andb_true_r.
    destruct (time_le start_time now) eqn:Hle; [ reflexivity | ].
    cbn [orb]. apply time_lt_le_trans with start_time; [ | exact Horder ].
    now rewrite time_lt_not_le, Hle.
  - rewrite andb_false_r. cbn [orb].
    now apply last_minute_not_before.
Qed.

Lemma in_window_not_wrapping_witness :
  in_window (mkTime 8 0 0 0) (mkTime 20 0 0 0) (mkTime 3 15 0 0)
  = time_le (mkTime 3 15 0 0) t_23_59.
Proof.
  apply (in_window_not_wrapping (mkTime 8 0 0 0) (mkTime 20 0 0 0)
           (mkTime 3 15 0 0)); reflexivity.
Defined.

(** X2.  For a window that wraps past midnight the test of [start] is the
    interval logic cut off at 23:59:00: the last minute of the day is
    outside. *)
Theorem in_window_wrapping_cut (start_time end_time now : time) :
  time_lt end_time start_time = true ->
  time_le end_time t_23_59 = true ->
  in_window start_time end_time now =
  window_reference start_time end_time now && time_le now t_23_59.
Proof.
  intros Hwrap Hend. rewrite in_window_unfold. unfold window_reference.
  rewrite Hwrap. destruct (time_le now t_23_59) eqn:Hday.
  - now rewrite !andb_true_r.
  - rewrite !andb_false_r. cbn [orb].
    now apply last_minute_not_before.
Qed.

Lemma in_window_wrapping_cut_witness :
  in_window (mkTime 22 0 0 0) (mkTime 6 0 0 0) (mkTime 23 59 30 0) =
  window_reference (mkTime 22 0 0 0) (mkTime 6 0 0 0) (mkTime 23 59 30 0)
  && time_le (mkTime 23 59 30 0) t_23_59.
Proof.
  apply (in_window_wrapping_cut (mkTime 22 0 0 0) (mkTime 6 0 0 0)
           (mkTime 23 59 30 0)); reflexivity.
Defined.

(* ================================================================== *)
(** * What a constructed object is                                      *)
(* ================================================================== *)

(** A time read by [strptime] with [%H:%M] is on a whole minute of the
    day. *)
Lemma digit_value_bound (c : N) (d : nat) :
  digit_value c = Some d -> d < 10.
Proof.
  unfold digit_value.
  destruct (find _ decimal_zeros) as [zero|] eqn:Hfind; [ | discriminate ].
  apply find_some in Hfind as [_ Hrange].
  apply andb_true_iff in Hrange as [Hlow Hhigh].
  apply N.leb_le in Hlow. apply N.ltb_lt in Hhigh.
  intros [= <-]. lia.
Qed.

Lemma ascii_digit_bound (low high c : N) (d : nat) :
  ascii_digit low high c = Some d -> d <= N.to_nat high.
Proof.
  unfold ascii_digit.
  destruct (48 + low <=? c)%N eqn:Hlow; [ | discriminate ].
  destruct (c <=? 48 + high)%N eqn:Hhigh; [ | discriminate ].
  apply N.leb_le in Hlow, Hhigh. intros [= <-]. lia.
Qed.

Lemma hour_of_bound (h : text) (hh : nat) : hour_of h = Some hh -> hh < 24.
Proof.
  unfold hour_of. destruct h as [|a [|b [|c rest]]]; try discriminate.
  - intros H. apply digit_value_bound in H. lia.
  - destruct (ascii_digit 2 2 a) as [x|]; [ destruct (ascii_digit 0 3 b) as [y|] eqn:Hb | ].
    + intros [= <-]. apply ascii_digit_bound in Hb. cbn in Hb. lia.
    + destruct (ascii_digit 0 1 a) as [x'|] eqn:Ha; [ | discriminate ].
      destruct (digit_value b) as [y|] eqn:Hd; [ | discriminate ].
      intros [= <-]. apply ascii_digit_bound in Ha.
      apply digit_value_bound in Hd. cbn in Ha. lia.
    + destruct (ascii_digit 0 1 a) as [x'|] eqn:Ha; [ | discriminate ].
      destruct (digit_value b) as [y|] eqn:Hd; [ | discriminate ].
      intros [= <-]. apply ascii_digit_bound in Ha.
      apply digit_value_bound in Hd. cbn in Ha. lia.
Qed.

Lemma minute_of_bound (m : text) (mm : nat) :
  minute_of m = Some mm -> mm < 60.
Proof.
  unfold minute_of. destruct m as [|a [|b [|c rest]]]; try discriminate.
  - intros H. apply digit_value_bound in H. lia.
  - destruct (ascii_digit 0 5 a) as [x|] eqn:Ha; [ | discriminate ].
    destruct (digit_value b) as [y|] eqn:Hd; [ | discriminate ].
    intros [= <-]. apply ascii_digit_bound in Ha.
    apply digit_value_bound in Hd. cbn in Ha. lia.
Qed.

(** A time read by [strptime] with [%H:%M] is on a whole minute of the
    day. *)
Lemma strptime_HM_whole_minute (s : text) (t : time) :
  strptime_HM s = Some t ->
  hour t < 24 /\ minute t < 60 /\ second t = 0 /\ microsecond t = 0 /\
  time_le t t_23_59 = true.
Proof.
  unfold strptime_HM.
  destruct (split_colon s) as [[h m]|]; [ | discriminate ].
  destruct (hour_of h) as [hh|] eqn:Hh; [ | discriminate ].
  destruct (minute_of m) as [mm|] eqn:Hm; [ | discriminate ].
  intros [= <-]. cbn [hour minute second microsecond].
  apply hour_of_bound in Hh. apply minute_of_bound in Hm.
  repeat split; try assumption.
  unfold time_le, time_cmp, t_23_59; cbn [hour minute second microsecond].
  destruct (Nat.compare_spec hh 23); try reflexivity; [ | lia ].
  destruct (Nat.compare_spec mm 59); try reflexivity; lia.
Qed.

Lemma load_devices_has_url (devices : list (string * device_config)) :
  forall acc device_map,
    load_devices devices acc = Ok device_map ->
    forallb has_url devices = true.
Proof.
  induction devices as [|[name d] rest IH]; intros acc dm; cbn;
    [ reflexivity | ].
  unfold has_url at 1; cbn [snd].
  destruct (cfg_dashboard_url d) as [url|]; cbn; [ | discriminate ].
  apply IH.
Qed.

Lemma text_eqb_eq (a b : text) : text_eqb a b = true -> a = b.
Proof.
  revert b. induction a as [|x a IH]; intros [|y b]; cbn;
    try discriminate; [ reflexivity | ].
  intros H. apply andb_true_iff in H as [Hx Hrest].
  apply N.eqb_eq in Hx. now rewrite Hx, (IH b Hrest).
Qed.

Lemma table_get_In (c : N) (form : list N) (table : list (N * list N)) :
  table_get c table = Some form -> In (c, form) table.
Proof.
  induction table as [|[k v] rest IH]; cbn; [ discriminate | ].
  destruct (N.eqb_spec c k) as [->|]; [ | now right; apply IH ].
  intros [= ->]. now left.
Qed.

(** An upper-case form is its own upper-case form. *)
Lemma uppercase_forms_fixed :
  forallb (fun entry => text_eqb (upper (snd entry)) (snd entry))
    uppercase_table = true.
Proof. vm_compute. reflexivity. Qed.

Lemma upper_char_fixed (c : N) : upper (upper_char c) = upper_char c.
Proof.
  unfold upper_char.
  destruct (table_get c uppercase_table) as [form|] eqn:Hget.
  - apply table_get_In in Hget.
    apply text_eqb_eq.
    exact (proj1 (forallb_forall _ _) uppercase_forms_fixed _ Hget).
  - unfold upper; cbn [flat_map]. unfold upper_char. rewrite Hget.
    reflexivity.
Qed.

Lemma upper_idempotent (s : text) : upper (upper s) = upper s.
Proof.
  unfold upper. induction s as [|c s IH]; cbn [flat_map]; [ reflexivity | ].
  rewrite flat_map_app, IH. f_equal. apply upper_char_fixed.
Qed.

(** X3.  Construction returns only for a configuration whose entries are all
    there and well formed ([strptime] reads both times) and whose level has
    a severity name for its [str.upper]; the object
    then has five retries, thirty seconds between them, the configured
    pause, window times on whole minutes, and the logger gets one of the
    six numeric levels. *)
Theorem init_returns_only_if (cfg : config) (self : caster) (level : nat) :
  init cfg = Ok (self, level) ->
  well_formed cfg = true /\
  is_severity_name (get_default (cfg_logging_level cfg) (text_of_string "info")) = true /\
  max_retries self = 5 /\
  retry_delay self = 30%N /\
  cfg_cast_delay cfg = Some (cast_delay self) /\
  In level [0; 10; 20; 30; 40; 50] /\
  (exists s, cfg_start_time cfg = Some s /\
             strptime_HM s = Some (start_time self)) /\
  (exists s, cfg_end_time cfg = Some s /\
             strptime_HM s = Some (end_time self)) /\
  time_le (end_time self) t_23_59 = true.
Proof.
  rewrite severity_name_is_int. unfold init, well_formed, parses.
  destruct cfg as [delay start_s end_s devices lvl];
    cbn [cfg_cast_delay cfg_start_time cfg_end_time cfg_devices
         cfg_logging_level].
  destruct delay as [delay|]; [ cbn [subscript ebind] | discriminate ].
  destruct start_s as [start_s|]; [ cbn [subscript ebind] | discriminate ].
  unfold strptime_time.
  destruct (strptime_HM start_s) as [t1|] eqn:Hstart;
    [ cbn [ebind] | discriminate ].
  destruct end_s as [end_s|]; [ cbn [subscript ebind] | discriminate ].
  destruct (strptime_HM end_s) as [t2|] eqn:Hend;
    [ cbn [ebind] | discriminate ].
  destruct devices as [devices|]; [ cbn [subscript ebind] | discriminate ].
  destruct (load_devices devices []) as [dm|] eqn:Hload;
    [ cbn [ebind] | discriminate ].
  destruct (getattr_logging _) as [[n|]|] eqn:Hlevel; try discriminate.
  intros [= <- <-].
  cbn [max_retries retry_delay cast_delay start_time end_time andb].
  rewrite (load_devices_has_url _ _ _ Hload).
  repeat split; eauto.
  - unfold getattr_logging, logging_attributes in Hlevel.
    cbn [attribute_get] in Hlevel.
    repeat match type of Hlevel with
           | (if ?c then _ else _) = _ => destruct c
           end;
      try discriminate; injection Hlevel as <-; cbn; tauto.
  - apply (strptime_HM_whole_minute _ _ Hend).
Qed.

Lemma init_returns_only_if_witness :
  well_formed (Scenario.good_config (Some (text_of_string "Debug"))) = true /\
  In 10 [0; 10; 20; 30; 40; 50].
Proof.
  destruct (init_returns_only_if (Scenario.good_config (Some (text_of_string "Debug")))
              Scenario.night 10 eq_refl) as (Hwf & _ & _ & _ & _ & Hin & _).
  split; [ exact Hwf | exact Hin ].
Defined.

(** X4.  The level name is read in any letter case: a name and its upper-case
    form give the same construction. *)
Theorem init_level_any_case (delay : option N) (start_s end_s : option text)
    (devices : option (list (string * device_config))) (name : text) :
  init (mkConfig delay start_s end_s devices (Some name)) =
  init (mkConfig delay start_s end_s devices (Some (upper name))).
Proof.
  unfold init; cbn [cfg_logging_level get_default].
  now rewrite upper_idempotent.
Qed.

(** A new key goes to the end of a [dict]. *)
Lemma dict_set_fresh {V} (k : string) (v : V) (d : list (string * V)) :
  ~ In k (map fst d) -> dict_set k v d = d ++ [(k, v)].
Proof.
  induction d as [|[k' v'] rest IH]; intros Hfresh; cbn; [ reflexivity | ].
  destruct (String.eqb_spec k k') as [->|Hne].
  - elim Hfresh. now left.
  - rewrite IH; [ reflexivity | ]. intros Hin. apply Hfresh. now right.
Qed.

(** Looking a key up after setting it gives the new value, and the
    other keys are not touched. *)
Lemma dict_get_set {V} (k k' : string) (v : V) (d : list (string * V)) :
  dict_get k' (dict_set k v d) =
  if String.eqb k' k then Some v else dict_get k' d.
Proof.
  induction d as [|[k0 v0] rest IH]; cbn.
  - now destruct (String.eqb k' k).
  - destruct (String.eqb_spec k k0) as [->|Hne]; cbn.
    + now destruct (String.eqb k' k0).
    + destruct (String.eqb_spec k' k0) as [->|Hne'].
      * destruct (String.eqb_spec k0 k) as [->|]; [ now elim Hne | ].
        reflexivity.
      * exact IH.
Qed.

Lemma load_devices_closed_form (devices : list (string * device_config)) :
  forall acc,
    NoDup (map fst acc ++ map fst devices) ->
    forallb has_url devices = true ->
    load_devices devices acc = Ok (acc ++ map entry_of devices).
Proof.
  induction devices as [|[name d] rest IH]; intros acc Hnodup Hurl; cbn.
  - now rewrite app_nil_r.
  - cbn in Hurl. apply andb_true_iff in Hurl as [Hhead Hrest].
    unfold has_url in Hhead; cbn [snd] in Hhead.
    unfold entry_of at 1; cbn [fst snd].
    destruct (cfg_dashboard_url d) as [url|]; [ | discriminate ].
    cbn [subscript ebind get_default]. cbn [map] in Hnodup.
    rewrite dict_set_fresh.
    + rewrite IH; [ now rewrite <- app_assoc | | exact Hrest ].
      rewrite map_app, <- app_assoc. exact Hnodup.
    + intros Hin. apply NoDup_remove_2 in Hnodup. apply Hnodup.
      apply in_or_app. now left.
Qed.

Lemma dict_get_entry (devices : list (string * device_config))
    (name : string) (d : device_config) :
  NoDup (map fst devices) ->
  In (name, d) devices ->
  dict_get name (map entry_of devices) = Some (snd (entry_of (name, d))).
Proof.
  induction devices as [|[k d'] rest IH]; intros Hnodup Hin;
    [ contradiction | ].
  cbn [map entry_of fst snd dict_get]. inversion Hnodup as [|? ? Hk Hrest].
  destruct Hin as [[= -> ->]|Hin].
  - now rewrite String.eqb_refl.
  - destruct (String.eqb_spec name k) as [->|Hne].
    + elim Hk. change k with (fst (k, d)). now apply in_map.
    + now apply IH.
Qed.

(** X5.  The table of a constructed object has the configured devices in the
    order of the configuration, each under its name with its URL and with
    the state token of the configuration, or [Dummy] when there is none. *)
Theorem init_device_map (cfg : config) (self : caster) (level : nat)
    (devices : list (string * device_config)) :
  init cfg = Ok (self, level) ->
  cfg_devices cfg = Some devices ->
  NoDup (map fst devices) ->
  map fst (device_map self) = map fst devices /\
  forall name url token,
    In (name, mkDeviceConfig (Some url) token) devices ->
    dict_get name (device_map self)
    = Some (mkDevice url (get_default token "Dummy")).
Proof.
  intros Hinit Hdevices Hnodup.
  assert (Hmap : device_map self = map entry_of devices).
  { revert Hinit. unfold init. rewrite Hdevices.
    destruct (subscript (cfg_cast_delay cfg)); [ cbn [ebind] | discriminate ].
    destruct (subscript (cfg_start_time cfg)); [ cbn [ebind] | discriminate ].
    destruct (strptime_time _); [ cbn [ebind] | discriminate ].
    destruct (subscript (cfg_end_time cfg)); [ cbn [ebind] | discriminate ].
    destruct (strptime_time _); [ cbn [ebind subscript] | discriminate ].
    destruct (load_devices devices []) as [dm|] eqn:Hload;
      [ cbn [ebind] | discriminate ].
    destruct (getattr_logging _) as [[n|]|]; try discriminate.
    intros [= <- <-]. cbn [device_map].
    rewrite load_devices_closed_form in Hload.
    - now injection Hload as <-.
    - exact Hnodup.
    - eapply load_devices_has_url, Hload. }
  rewrite Hmap. split.
  - rewrite map_map. apply map_ext. now intros [k d].
  - intros name url token Hin.
    now rewrite (dict_get_entry _ _ _ Hnodup Hin).
Qed.

Lemma init_device_map_witness :
  dict_get "tv" (device_map Scenario.night)
  = Some (mkDevice "http://ha.local/dash" (get_default None "Dummy")).
Proof.
  destruct (init_device_map (Scenario.good_config None) Scenario.night 20
              [("tv", mkDeviceConfig (Some "http://ha.local/dash") None)]
              eq_refl eq_refl) as [_ Hget].
  - repeat constructor. intros [].
  - apply Hget. now left.
Defined.

(* ================================================================== *)
(** * The status checks, in general                                     *)
(* ================================================================== *)

(** X6.  [check_status] never waits for more than its ten seconds and never
    stalls: it starts the one status command and adds at most one record;
    when it raises, the exception is one that none of its clauses
    catches. *)
Theorem check_status_bounded (env : oracle) (device_name state : string)
    (w w1 : world) (r : outcome pyval) :
  check_status env device_name state w = (r, w1) ->
  r <> Stall /\
  (clock w <= clock w1 <= clock w + 10)%N /\
  spawned w1 = S (spawned w) /\
  (forall e, r = Raise e ->
     isinstance e CalledProcessError = false /\
     isinstance e TimeoutExpired = false /\
     isinstance e ValueError = false) /\
  exists logs,
    trace w1 = trace w ++ Spawn (catt device_name ["status"]) :: logs /\
    (logs = [] \/ exists msg, logs = [Log ERROR msg]).
Proof.
  intros Hcheck.
  destruct (check_status_effect _ _ _ _ _ _ Hcheck) as [Hspawned Hlogs].
  revert Hcheck. rewrite check_status_cases. cbn zeta.
  destruct (env (spawned w) (catt device_name ["status"]))
    as [e|[dur rc out|]].
  - destruct (isinstance e CalledProcessError) eqn:H1;
      [ | destruct (isinstance e TimeoutExpired) eqn:H2;
          [ | destruct (isinstance e ValueError) eqn:H3 ] ];
      intros [= <- <-]; cbn [clock record_event after_spawn];
      (split; [ discriminate | ]); (split; [ lia | ]);
      (split; [ assumption | ]); (split; [ | assumption ]);
      intros e' [= <-]; auto.
  - destruct (10 <? dur)%N eqn:Hdur; [ | destruct out ];
      intros [= <- <-]; cbn [clock record_event after_spawn tick];
      (split; [ discriminate | ]);
      (split; [ apply N.ltb_ge in Hdur || clear Hdur; lia | ]);
      (split; [ assumption | ]); (split; [ | assumption ]);
      intros e' [= <-]; auto.
  - intros [= <- <-]; cbn [clock record_event after_spawn tick].
    (split; [ discriminate | ]); (split; [ lia | ]).
    (split; [ assumption | ]); (split; [ | assumption ]).
    intros e' [= <-]; auto.
Qed.

Lemma check_status_bounded_witness :
  (clock (Scenario.at_clock 23 0)
   <= clock (snd (check_status Scenario.status_hangs "tv" "Dummy"
                    (Scenario.at_clock 23 0)))
   <= clock (Scenario.at_clock 23 0) + 10)%N.
Proof.
  apply (check_status_bounded Scenario.status_hangs "tv" "Dummy"
           (Scenario.at_clock 23 0) _ _ eq_refl).
Defined.

(** The [state] argument of [check_status] is only used in the text of
    its error records: the result, the clock and the processes started do
    not depend on it. *)
Lemma check_status_state_blind (env : oracle) (device_name s1 s2 : string)
    (w : world) :
  fst (check_status env device_name s1 w)
  = fst (check_status env device_name s2 w) /\
  clock (snd (check_status env device_name s1 w))
  = clock (snd (check_status env device_name s2 w)) /\
  spawned (snd (check_status env device_name s1 w))
  = spawned (snd (check_status env device_name s2 w)) /\
  filter is_spawn (trace (snd (check_status env device_name s1 w)))
  = filter is_spawn (trace (snd (check_status env device_name s2 w))).
Proof.
  rewrite !check_status_cases. cbn zeta.
  destruct (env (spawned w) (catt device_name ["status"]))
    as [e|[dur rc out|]].
  - destruct (isinstance e CalledProcessError);
      [ | destruct (isinstance e TimeoutExpired);
          [ | destruct (isinstance e ValueError) ] ];
      cbn; rewrite ?filter_app; cbn; rewrite ?app_nil_r; auto.
  - destruct (10 <? dur)%N; [ | destruct out ];
      cbn; rewrite ?filter_app; cbn; rewrite ?app_nil_r; auto.
  - cbn; auto.
Qed.

(** X7.  [check_media_state] gives what [check_dashboard_state] gives for a
    device of the table: the status text as it is, or [None]; neither
    looks for its token in the text. *)
Theorem check_media_state_same (env : oracle) (self : caster)
    (device_name : string) (info : device_info) (w : world) :
  dict_get device_name (device_map self) = Some info ->
  fst (check_media_state env device_name w)
  = fst (check_dashboard_state env self device_name w) /\
  clock (snd (check_media_state env device_name w))
  = clock (snd (check_dashboard_state env self device_name w)) /\
  spawned (snd (check_media_state env device_name w))
  = spawned (snd (check_dashboard_state env self device_name w)) /\
  (forall dur rc text,
      env (spawned w) (catt device_name ["status"])
      = Started (Exits dur rc (Some text)) ->
      (dur <= 10)%N ->
      fst (check_media_state env device_name w) = Ret (PyStr text)).
Proof.
  intros Hget.
  unfold check_media_state, check_dashboard_state, getitem, bind.
  rewrite Hget. cbn [ret].
  destruct (check_status_state_blind env device_name "PLAYING"
              (dashboard_state_name info) w) as (H1 & H2 & H3 & _).
  repeat split; try assumption.
  intros dur rc text Henv Hdur. rewrite check_status_cases, Henv.
  cbn zeta. apply N.ltb_ge in Hdur. now rewrite Hdur.
Qed.

Lemma check_media_state_same_witness :
  fst (check_media_state Scenario.idle "tv" (Scenario.at_clock 12 0))
  = fst (check_dashboard_state Scenario.idle Scenario.night "tv"
           (Scenario.at_clock 12 0)).
Proof.
  destruct (check_media_state_same Scenario.idle Scenario.night "tv"
              Scenario.tv (Scenario.at_clock 12 0) eq_refl) as [Hsame _].
  exact Hsame.
Defined.

(** X8.  For a device that is not in the table, [check_dashboard_state] and
    [check_both_states] raise [KeyError] before any process is started;
    [check_media_state] does not look the device up and starts the status
    command. *)
Theorem checks_of_unknown_device (env : oracle) (self : caster)
    (device_name : string) (w : world) :
  dict_get device_name (device_map self) = None ->
  check_dashboard_state env self device_name w = (Raise KeyError, w) /\
  check_both_states env self device_name w = (Raise KeyError, w) /\
  spawned (snd (check_media_state env device_name w)) = S (spawned w) /\
  filter is_spawn (trace (snd (check_media_state env device_name w)))
  = filter is_spawn (trace w) ++ [Spawn (catt device_name ["status"])].
Proof.
  intros Hget.
  unfold check_dashboard_state, check_both_states, getitem, bind.
  rewrite Hget. split; [ reflexivity | split; [ reflexivity | ] ].
  unfold check_media_state.
  destruct (check_status env device_name "PLAYING" w) as [r w1] eqn:Hcheck.
  apply check_status_effect in Hcheck as (Hsp & logs & Htr & Hlogs).
  cbn [snd]. split; [ exact Hsp | ]. rewrite Htr, filter_app. f_equal.
  destruct Hlogs as [->|[msg ->]]; reflexivity.
Qed.

Lemma checks_of_unknown_device_witness :
  check_both_states Scenario.idle Scenario.night "kitchen"
    (Scenario.at_clock 23 0)
  = (Raise KeyError, Scenario.at_clock 23 0).
Proof.
  apply (checks_of_unknown_device Scenario.idle Scenario.night "kitchen"
           (Scenario.at_clock 23 0) eq_refl).
Defined.

(** [str_in] is the substring test. *)
Lemma prefix_occurs (p s : string) :
  prefix p s = true <-> exists rest, s = p +++ rest.
Proof.
  revert s. induction p as [|a p IH]; intros s.
  - split; [ intros _; exists s; reflexivity | now destruct s ].
  - destruct s as [|b s]; cbn [prefix].
    + split; [ discriminate | intros [rest [=]] ].
    + destruct (ascii_dec a b) as [->|Hne].
      * rewrite IH. split; intros [rest H]; exists rest.
        -- unfold String.append; fold String.append. now rewrite <- H.
        -- unfold String.append in H; fold String.append in H.
           now injection H.
      * split; [ discriminate | ]. intros [rest H].
        unfold String.append in H; fold String.append in H.
        injection H as Hab _. now elim Hne.
Qed.

Lemma str_in_occurs (needle hay : string) :
  str_in needle hay = true <-> occurs needle hay.
Proof.
  unfold occurs. induction hay as [|c hay IH]; cbn [str_in].
  - rewrite orb_false_r, prefix_occurs. split.
    + intros [rest H]. exists "", rest. exact H.
    + intros (before & rest & H). destruct before as [|b before].
      * exists rest. exact H.
      * discriminate H.
  - rewrite orb_true_iff, prefix_occurs, IH. split.
    + intros [[rest H]|(before & rest & H)].
      * exists "", rest. exact H.
      * exists (String c before), rest.
        unfold String.append; fold String.append. now rewrite <- H.
    + intros (before & rest & H). destruct before as [|b before].
      * left. exists rest. exact H.
      * right. exists before, rest.
        unfold String.append in H; fold String.append in H.
        now injection H.
Qed.

(** X9.  [check_both_states] answers [True] exactly when the status text is not
    empty and has the state token of the device or the word [PLAYING]
    somewhere in it, and [False] for every other text. *)
Theorem check_both_states_truth (env : oracle) (self : caster)
    (device_name text : string) (info : device_info) (w w1 : world) :
  dict_get device_name (device_map self) = Some info ->
  check_status env device_name (dashboard_state_name info) w
  = (Ret (PyStr text), w1) ->
  (fst (check_both_states env self device_name w) = Ret (PyBool true) <->
   text <> "" /\
   (occurs (dashboard_state_name info) text \/ occurs "PLAYING" text)) /\
  (fst (check_both_states env self device_name w) = Ret (PyBool true) \/
   fst (check_both_states env self device_name w) = Ret (PyBool false)).
Proof.
  intros Hget Hstatus.
  unfold check_both_states, getitem, bind. rewrite Hget. cbn [ret].
  rewrite Hstatus. cbn [is_None truthy orb].
  rewrite <- !str_in_occurs.
  destruct (String.eqb_spec text "") as [->|Hne]; cbn [negb].
  - cbn [fst ret]. split; [ | now right ].
    split; [ discriminate | intros [Hne _]; now elim Hne ].
  - cbn [log emit ret fst].
    destruct (str_in (dashboard_state_name info) text);
      destruct (str_in "PLAYING" text); cbn [orb];
      (split; [ | auto ]); split; try discriminate; auto.
    + intros [_ [H|H]]; discriminate H.
Qed.

Lemma check_both_states_truth_witness :
  fst (check_both_states Scenario.showing_dashboard Scenario.night "tv"
         (Scenario.at_clock 23 0))
  = Ret (PyBool true) \/
  fst (check_both_states Scenario.showing_dashboard Scenario.night "tv"
         (Scenario.at_clock 23 0))
  = Ret (PyBool false).
Proof.
  apply (check_both_states_truth Scenario.showing_dashboard Scenario.night
           "tv" "Dummy" Scenario.tv (Scenario.at_clock 23 0)
           (mkWorld 82801 1 [Spawn ["catt"; "-d"; "tv"; "status"]])
           eq_refl eq_refl).
Defined.

(* ================================================================== *)
(** * The cast sequence, in general                                     *)
(* ================================================================== *)

Ltac answer_timed env :=
  match goal with
  | |- context [env ?n ?argv] =>
      let e := fresh "e" in
      let dur := fresh "dur" in
      let Hdur := fresh "Hdur" in
      destruct (env n argv) as [e|[dur ? ?|]];
      [ destruct e
      | rewrite ?wait_for_wait; destruct (10 <? dur)%N eqn:Hdur;
        [ | apply N.ltb_ge in Hdur ]
      | ]
  end.

Ltac cast_prefix k :=
  solve [ exists k; eexists;
          split; [ lia | ];
          split; [ cbn; rewrite <- ?app_assoc; cbn; reflexivity | ];
          split; [ first [ left; reflexivity | right; eexists; reflexivity ]
                 | cbn; lia ] ].

Ltac cast_leaf :=
  intros [= <- <-]; cbn [tick record_event clock spawned trace];
  (split; [ discriminate | ]);
  (split; [ lia | ]);
  (split; [ intros ? [= <-]; reflexivity || intros ? [=] | ]);
  first [ cast_prefix 1 | cast_prefix 2 | cast_prefix 3 | cast_prefix 4 ].

(** X10.  Whatever the commands do, the cast sequence never stalls and takes at
    most forty seconds; the processes it starts are the first [k] of its
    four commands, in order and with no repetition, for some [k] from 1
    to 4; it adds at most one error record, after them; and an exception
    that leaves it is one that none of its clauses catches. *)
Theorem cast_dashboard_shape (env : oracle) (device_name url : string)
    (w w' : world) (r : outcome unit) :
  cast_dashboard env device_name url w = (r, w') ->
  r <> Stall /\
  (clock w <= clock w' <= clock w + 40)%N /\
  (forall e, r = Raise e -> caught_by_cast e = false) /\
  exists k tail,
    1 <= k <= 4 /\
    trace w' = trace w ++
      Log INFO ("Casting dashboard to " +++ device_name)
      :: map Spawn (firstn k (cast_commands device_name url)) ++ tail /\
    (tail = [] \/ exists msg, tail = [Log ERROR msg]) /\
    spawned w' = spawned w + k.
Proof.
  unfold cast_dashboard, try_except, bind, log, emit, create_subprocess_exec.
  cbn [record_event clock spawned trace].
  answer_timed env; try cast_leaf.
  cbn [tick clock spawned trace].
  answer_timed env; try cast_leaf.
  cbn [tick clock spawned trace].
  answer_timed env; try cast_leaf.
  cbn [tick clock spawned trace].
  answer_timed env; cast_leaf.
Qed.

Lemma cast_dashboard_shape_witness :
  (clock (Scenario.at_clock 23 0)
   <= clock (snd (cast_dashboard Scenario.cast_fails "tv"
                    "http://ha.local/dash" (Scenario.at_clock 23 0)))
   <= clock (Scenario.at_clock 23 0) + 40)%N.
Proof.
  apply (cast_dashboard_shape Scenario.cast_fails "tv" "http://ha.local/dash"
           (Scenario.at_clock 23 0) _ _ eq_refl).
Defined.

Ltac in_time H i :=
  let p := fresh "p" in
  let Henv := fresh "Henv" in
  let Hfast := fresh "Hfast" in
  let dur := fresh "dur" in
  destruct (H i ltac:(lia)) as (p & Henv & Hfast);
  cbn [nth cast_commands] in Henv;
  rewrite ?Nat.add_succ_r, ?Nat.add_0_r in Henv;
  rewrite Henv; destruct p as [dur ? ?|]; [ | discriminate Hfast ];
  cbn [too_slow] in Hfast; rewrite wait_for_wait, Hfast;
  cbn [tick clock spawned trace].

Ltac out_of_time H :=
  let p := fresh "p" in
  let Henv := fresh "Henv" in
  let Hslow := fresh "Hslow" in
  let dur := fresh "dur" in
  destruct H as (p & Henv & Hslow);
  cbn [nth cast_commands] in Henv;
  rewrite ?Nat.add_succ_r, ?Nat.add_0_r in Henv;
  rewrite Henv; destruct p as [dur ? ?|];
  [ cbn [too_slow] in Hslow; rewrite wait_for_wait, Hslow
  | cbn [wait_for process_wait] ];
  cbn; eexists; (split; [ reflexivity | ]); cbn;
  (split; [ lia | ]); rewrite <- ?app_assoc; reflexivity.

(** X11.  When each of the four commands exits within its ten seconds, with any
    return code, the sequence starts the four of them in order, adds no
    error record and returns. *)
Theorem cast_dashboard_all_in_time (env : oracle) (device_name url : string)
    (w : world) :
  (forall i, i < 4 ->
     exists p,
       env (spawned w + i) (nth i (cast_commands device_name url) [])
       = Started p /\ too_slow p = false) ->
  exists w',
    cast_dashboard env device_name url w = (Ret tt, w') /\
    spawned w' = spawned w + 4 /\
    trace w' = trace w ++
      Log INFO ("Casting dashboard to " +++ device_name)
      :: map Spawn (cast_commands device_name url).
Proof.
  intros Hfast.
  unfold cast_dashboard, try_except, bind, log, emit, create_subprocess_exec.
  cbn [record_event clock spawned trace].
  in_time Hfast 0. in_time Hfast 1. in_time Hfast 2. in_time Hfast 3.
  cbn. eexists. split; [ reflexivity | ]. cbn.
  split; [ lia | ]. now rewrite <- !app_assoc.
Qed.

Lemma cast_dashboard_all_in_time_witness :
  exists w',
    cast_dashboard Scenario.cast_fails "tv" "http://ha.local/dash"
      (Scenario.at_clock 23 0) = (Ret tt, w') /\
    spawned w' = 4 /\
    trace w' =
      Log INFO "Casting dashboard to tv"
      :: map Spawn (cast_commands "tv" "http://ha.local/dash").
Proof.
  apply (cast_dashboard_all_in_time Scenario.cast_fails "tv"
           "http://ha.local/dash" (Scenario.at_clock 23 0)).
  intros i Hi.
  destruct i as [|[|[|[|i]]]]; try lia; eexists; split; reflexivity.
Defined.

(** X12.  When the first [j] commands exit in time and the next one does not
    (it runs for more than ten seconds, or never exits), the sequence ends
    there: no later command is started, one timeout record is added and
    [cast_dashboard] returns. *)
Theorem cast_dashboard_stops_at_timeout (env : oracle)
    (device_name url : string) (w : world) (j : nat) :
  j < 4 ->
  (forall i, i < j ->
     exists p,
       env (spawned w + i) (nth i (cast_commands device_name url) [])
       = Started p /\ too_slow p = false) ->
  (exists p,
     env (spawned w + j) (nth j (cast_commands device_name url) [])
     = Started p /\ too_slow p = true) ->
  exists w',
    cast_dashboard env device_name url w = (Ret tt, w') /\
    spawned w' = spawned w + S j /\
    trace w' = trace w ++
      Log INFO ("Casting dashboard to " +++ device_name)
      :: map Spawn (firstn (S j) (cast_commands device_name url)) ++
      [Log ERROR ("Timeout casting dashboard to " +++ device_name
                    +++ ": " +++ exn_name AsyncioTimeoutError)].
Proof.
  intros Hj Hfast Hslow.
  unfold cast_dashboard, try_except, bind, log, emit, create_subprocess_exec.
  cbn [record_event clock spawned trace].
  destruct j as [|[|[|[|j]]]]; [ | | | | lia ].
  - out_of_time Hslow.
  - in_time Hfast 0. out_of_time Hslow.
  - in_time Hfast 0. in_time Hfast 1. out_of_time Hslow.
  - in_time Hfast 0. in_time Hfast 1. in_time Hfast 2. out_of_time Hslow.
Qed.

Lemma cast_dashboard_stops_at_timeout_witness :
  exists w',
    cast_dashboard Scenario.idle_stop_hangs "tv" "http://ha.local/dash"
      (Scenario.at_clock 23 0) = (Ret tt, w') /\
    spawned w' = 1 /\
    trace w' =
      [Log INFO "Casting dashboard to tv";
       Spawn ["catt"; "-d"; "tv"; "stop"];
       Log ERROR "Timeout casting dashboard to tv: TimeoutError"].
Proof.
  apply (cast_dashboard_stops_at_timeout Scenario.idle_stop_hangs "tv"
           "http://ha.local/dash" (Scenario.at_clock 23 0) 0).
  - lia.
  - intros i Hi. lia.
  - eexists. split; reflexivity.
Defined.

(* ================================================================== *)
(** * One device inside the window, in general                          *)
(* ================================================================== *)

Lemma check_both_states_queries (env : oracle) (self : caster)
    (device_name : string) (w w' : world) (r : outcome pyval) :
  check_both_states env self device_name w = (r, w') ->
  exists added,
    trace w' = trace w ++ added /\
    count is_stop added = 0 /\
    count is_sleep added = 0 /\
    count is_warning added = 0 /\
    List.length (status_queries added) <= 1.
Proof.
  unfold check_both_states, getitem, bind.
  destruct (dict_get device_name (device_map self)) as [info|].
  2:{ intros [= <- <-]. exists []. rewrite app_nil_r. cbn.
      repeat split; lia. }
  cbn [ret]. rewrite check_status_cases. cbn zeta.
  assert (Hle : 1 <= 1) by lia.
  destruct (env (spawned w) (catt device_name ["status"]))
    as [e|[dur rc out|]].
  - destruct e; intros [= <- <-]; eexists;
      (split; [ cbn; rewrite <- ?app_assoc; cbn; reflexivity | ]);
      repeat split; try reflexivity; exact Hle.
  - destruct (10 <? dur)%N; [ | destruct out as [text|] ];
      [ | cbn [is_None truthy orb]; destruct (String.eqb text "") | ];
      intros [= <- <-]; eexists;
      (split; [ cbn; rewrite <- ?app_assoc; cbn; reflexivity | ]);
      repeat split; try reflexivity; exact Hle.
  - intros [= <- <-]; eexists;
      (split; [ cbn; rewrite <- ?app_assoc; cbn; reflexivity | ]);
      repeat split; try reflexivity; exact Hle.
Qed.

(** X13.  Whatever the environment does, the evaluation of one device inside
    the window asks for the status at most twice, starts the cast sequence
    at most once, pauses at most once and never records a retry. *)
Theorem inside_device_bounded (env : oracle) (self : caster)
    (item : string * device_info) (w w' : world) (r : outcome unit) :
  inside_device env self item w = (r, w') ->
  exists added,
    trace w' = trace w ++ added /\
    List.length (status_queries added) <= 2 /\
    count is_stop added <= 1 /\
    count is_sleep added <= 1 /\
    count is_warning added = 0.
Proof.
  destruct item as [device_name info]. unfold inside_device, bind.
  destruct (max_retries self) as [|remaining]; cbn [retry_loop].
  { cbn. intros [= <- <-]. eexists. split; [ reflexivity | ].
    cbn. repeat split; lia. }
  unfold bind.
  destruct (check_both_states env self device_name w)
    as [[first|e|] w1] eqn:Hfirst.
  2,3: apply check_both_states_queries in Hfirst
         as (a1 & Ht1 & Hs1 & Hp1 & Hw1 & Hq1);
       intros [= <- <-]; exists a1; repeat split; (assumption || lia).
  destruct (check_both_states_bool _ _ _ _ _ _ Hfirst) as [b ->].
  cbn [is_None].
  apply check_both_states_queries in Hfirst
    as (a1 & Ht1 & Hs1 & Hp1 & Hw1 & Hq1).
  destruct (check_both_states env self device_name w1)
    as [[second|e|] w2] eqn:Hsecond;
    apply check_both_states_queries in Hsecond
      as (a2 & Ht2 & Hs2 & Hp2 & Hw2 & Hq2).
  2,3: intros [= <- <-]; exists (a1 ++ a2);
       rewrite Ht2, Ht1, <- app_assoc, !count_app, status_queries_app,
         length_app;
       repeat split; lia.
  destruct (truthy second).
  - cbn. intros [= <- <-]. eexists (a1 ++ a2 ++ [_; _]).
    cbn [trace tick record_event].
    rewrite Ht2, Ht1, <- !app_assoc. split; [ reflexivity | ].
    rewrite !count_app, !status_queries_app, !length_app,
      Hs1, Hs2, Hp1, Hp2, Hw1, Hw2.
    cbn. repeat split; lia.
  - unfold log, emit. cbn [record_event].
    match goal with
    | |- context [cast_dashboard env ?d ?u ?w0] =>
        destruct (cast_dashboard env d u w0) as [[[]|e|] w3] eqn:Hcast;
        apply cast_dashboard_effect in Hcast
          as (a3 & Ht3 & Hs3 & Hp3 & Hw3 & Hq3)
    end; cbn in Ht3 |- *; intros [= <- <-].
    + eexists (a1 ++ a2 ++ [_] ++ a3 ++ [_]).
      cbn [trace tick record_event].
      rewrite Ht3, Ht2, Ht1, <- !app_assoc. split; [ reflexivity | ].
      rewrite !count_app, !status_queries_app, !length_app,
        Hs1, Hs2, Hs3, Hp1, Hp2, Hp3, Hw1, Hw2, Hw3, Hq3.
      cbn. repeat split; lia.
    + eexists (a1 ++ a2 ++ [_] ++ a3).
      rewrite Ht3, Ht2, Ht1, <- !app_assoc. split; [ reflexivity | ].
      rewrite !count_app, !status_queries_app, !length_app,
        Hs1, Hs2, Hs3, Hp1, Hp2, Hp3, Hw1, Hw2, Hw3, Hq3.
      cbn. repeat split; lia.
    + eexists (a1 ++ a2 ++ [_] ++ a3).
      rewrite Ht3, Ht2, Ht1, <- !app_assoc. split; [ reflexivity | ].
      rewrite !count_app, !status_queries_app, !length_app,
        Hs1, Hs2, Hs3, Hp1, Hp2, Hp3, Hw1, Hw2, Hw3, Hq3.
      cbn. repeat split; lia.
Qed.

Lemma inside_device_bounded_witness :
  exists added,
    trace (snd (inside_device Scenario.status_hangs Scenario.night
                  ("tv", Scenario.tv) (Scenario.at_clock 23 0)))
    = trace (Scenario.at_clock 23 0) ++ added /\
    List.length (status_queries added) <= 2 /\
    count is_stop added <= 1 /\
    count is_sleep added <= 1 /\
    count is_warning added = 0.
Proof.
  apply (inside_device_bounded Scenario.status_hangs Scenario.night
           ("tv", Scenario.tv) (Scenario.at_clock 23 0) _ _ eq_refl).
Defined.

(* ================================================================== *)
(** * The loop when every process exits in time                         *)
(* ================================================================== *)

Lemma check_both_states_responsive (env : oracle) (self : caster)
    (device_name : string) (w : world) :
  responsive env ->
  (exists info, dict_get device_name (device_map self) = Some info) ->
  exists b w' added,
    check_both_states env self device_name w = (Ret (PyBool b), w') /\
    trace w' = trace w ++ added /\
    status_queries added = [device_name] /\
    count is_sleep added = 0 /\
    count is_stop added = 0.
Proof.
  intros Henv [info Hget].
  unfold check_both_states, getitem, bind. rewrite Hget. cbn [ret].
  rewrite check_status_cases.
  destruct (Henv (spawned w) (catt device_name ["status"]))
    as (dur & rc & out & -> & Hdur).
  cbn zeta. apply N.ltb_ge in Hdur. rewrite Hdur.
  destruct out as [text|];
    [ cbn [is_None truthy orb]; destruct (String.eqb text "") | ];
    cbn; do 3 eexists; (split; [ reflexivity | ]); cbn;
    rewrite <- ?app_assoc; (split; [ reflexivity | ]);
    repeat split; reflexivity.
Qed.

Lemma inside_device_responsive (env : oracle) (self : caster)
    (device_name : string) (info : device_info) (w : world) :
  responsive env ->
  0 < max_retries self ->
  (exists info', dict_get device_name (device_map self) = Some info') ->
  exists w' added,
    inside_device env self (device_name, info) w = (Ret tt, w') /\
    trace w' = trace w ++ added /\
    status_queries added = [device_name; device_name] /\
    count is_sleep added = 1.
Proof.
  intros Henv Hretries Hget. unfold inside_device, bind.
  destruct (max_retries self) as [|remaining]; [ lia | ].
  cbn [retry_loop]. unfold bind.
  destruct (check_both_states_responsive env self device_name w Henv Hget)
    as (b1 & w1 & a1 & -> & Ht1 & Hq1 & Hp1 & _).
  cbn [is_None].
  destruct (check_both_states_responsive env self device_name w1 Henv Hget)
    as (b2 & w2 & a2 & -> & Ht2 & Hq2 & Hp2 & _).
  cbn [truthy]. destruct b2.
  - cbn. eexists. eexists (a1 ++ a2 ++ [_; _]). split; [ reflexivity | ].
    cbn [trace tick record_event]. rewrite Ht2, Ht1, <- !app_assoc.
    split; [ reflexivity | ].
    rewrite !status_queries_app, !count_app, Hq1, Hq2, Hp1, Hp2.
    split; reflexivity.
  - unfold log, emit. cbn [record_event].
    match goal with
    | |- context [cast_dashboard env ?d ?u ?w0] =>
        destruct (cast_dashboard_commands env d u w0 Henv)
          as (w3 & -> & _ & Ht3)
    end.
    cbn in Ht3 |- *. eexists.
    eexists (a1 ++ a2 ++ [_] ++ [_; _; _; _; _] ++ [_]).
    split; [ reflexivity | ].
    cbn [trace tick record_event]. rewrite Ht3, Ht2, Ht1, <- !app_assoc.
    split; [ reflexivity | ].
    rewrite !status_queries_app, !count_app, Hq1, Hq2, Hp1, Hp2.
    split; reflexivity.
Qed.

Lemma inside_sweep_responsive (env : oracle) (self : caster)
    (items : list (string * device_info)) :
  responsive env ->
  0 < max_retries self ->
  (forall item, In item items ->
     exists info', dict_get (fst item) (device_map self) = Some info') ->
  forall w,
  exists w' added,
    for_each (inside_device env self) items w = (Ret tt, w') /\
    trace w' = trace w ++ added /\
    status_queries added
    = flat_map (fun item => [fst item; fst item]) items /\
    count is_sleep added = List.length items.
Proof.
  intros Henv Hretries. induction items as [|[device_name info] rest IH];
    intros Hkeys w; cbn [for_each].
  - exists w, []. rewrite app_nil_r. repeat split.
  - unfold bind.
    destruct (inside_device_responsive env self device_name info w
                Henv Hretries)
      as (w1 & a1 & -> & Ht1 & Hq1 & Hp1).
    { apply (Hkeys (device_name, info)). now left. }
    destruct (IH (fun item Hin => Hkeys item (or_intror Hin)) w1)
      as (w2 & a2 & -> & Ht2 & Hq2 & Hp2).
    exists w2, (a1 ++ a2). split; [ reflexivity | ].
    rewrite Ht2, Ht1, <- app_assoc. split; [ reflexivity | ].
    rewrite status_queries_app, count_app, Hq1, Hq2, Hp1, Hp2.
    split; reflexivity.
Qed.

Lemma table_keys_found (self : caster) :
  forall item, In item (device_map self) ->
    exists info', dict_get (fst item) (device_map self) = Some info'.
Proof. intros [k v] Hin. cbn [fst]. eapply dict_get_In, Hin. Qed.

(** X14.  Inside the window, when every process exits in time, a cycle returns;
    it has asked each device of the table twice for its status, in table
    order, and has paused once for each device. *)
Theorem cycle_inside_window (env : oracle) (self : caster) (w : world) :
  responsive env ->
  0 < max_retries self ->
  in_window (start_time self) (end_time self) (time_of_clock (clock w))
  = true ->
  exists w' added,
    cycle env self w = (Ret tt, w') /\
    trace w' = trace w ++ added /\
    status_queries added
    = flat_map (fun item => [fst item; fst item]) (device_map self) /\
    count is_sleep added = List.length (device_map self).
Proof.
  intros Henv Hretries Hin.
  unfold cycle, datetime_now_time, bind. rewrite Hin.
  apply inside_sweep_responsive; try assumption.
  apply table_keys_found.
Qed.

Lemma cycle_inside_window_witness :
  exists w' added,
    cycle Scenario.idle Scenario.night (Scenario.at_clock 23 0)
    = (Ret tt, w') /\
    trace w' = trace (Scenario.at_clock 23 0) ++ added /\
    status_queries added
    = flat_map (fun item => [fst item; fst item])
        (device_map Scenario.night) /\
    count is_sleep added = List.length (device_map Scenario.night).
Proof.
  apply (cycle_inside_window Scenario.idle Scenario.night
           (Scenario.at_clock 23 0)).
  - intros n argv. unfold Scenario.idle, Scenario.succeeds.
    destruct (Scenario.is_status argv); do 3 eexists;
      (split; [ reflexivity | now apply N.leb_le ]).
  - cbn. lia.
  - reflexivity.
Defined.

(** A cycle in such an environment returns, and it has paused at least
    once unless it ran inside the window on an empty table. *)
Lemma cycle_responsive (env : oracle) (self : caster) (w : world) :
  responsive env ->
  0 < max_retries self ->
  exists w' added,
    cycle env self w = (Ret tt, w') /\
    trace w' = trace w ++ added /\
    (device_map self <> [] \/
     in_window (start_time self) (end_time self) (time_of_clock (clock w))
     = false ->
     1 <= count is_sleep added).
Proof.
  intros Henv Hretries.
  unfold cycle, datetime_now_time, bind.
  destruct (in_window _ _ _) eqn:Hin.
  - destruct (inside_sweep_responsive env self (device_map self) Henv
                Hretries (table_keys_found self) w)
      as (w' & added & -> & Htr & _ & Hp).
    exists w', added. split; [ reflexivity | ]. split; [ exact Htr | ].
    intros [Hne|Hout]; [ | discriminate ].
    rewrite Hp. destruct (device_map self); [ now elim Hne | cbn; lia ].
  - unfold outside_window, bind, log, emit.
    set (w0 := record_event _ w).
    destruct (outside_sweep_responsive env self (device_map self) Henv
                (table_keys_found self) false w0)
      as (active & w1 & sweep & -> & Htr & _ & Hc & ->).
    cbn [orb]. rewrite negb_involutive.
    destruct (count is_stop sweep =? 0) eqn:Hnone.
    + cbn. eexists. eexists ([_] ++ sweep ++ [_; _]).
      split; [ reflexivity | ]. cbn [trace tick record_event].
      rewrite Htr. subst w0. cbn [trace record_event].
      rewrite <- !app_assoc. split; [ reflexivity | ].
      intros _. rewrite !count_app. cbn. lia.
    + cbn. eexists. eexists ([_] ++ sweep).
      split; [ reflexivity | ].
      rewrite Htr. subst w0. cbn [trace record_event].
      rewrite <- !app_assoc. split; [ reflexivity | ].
      intros _. rewrite !count_app, Hc.
      apply Nat.eqb_neq in Hnone. cbn. lia.
Qed.

(** X15.  When every process exits in time the loop goes on for ever: no number
    of cycles ends with an exception or a stall. *)
Theorem start_keeps_running (env : oracle) (self : caster) :
  responsive env ->
  0 < max_retries self ->
  forall n w, fst (start_cycles env self n w) = Ret tt.
Proof.
  intros Henv Hretries. induction n as [|n IH]; intros w; [ reflexivity | ].
  cbn [start_cycles]. unfold bind.
  destruct (cycle_responsive env self w Henv Hretries)
    as (w' & added & -> & _). apply IH.
Qed.

Lemma start_keeps_running_witness :
  fst (start_cycles Scenario.silent Scenario.night 3 (Scenario.at_clock 12 0))
  = Ret tt.
Proof.
  apply (start_keeps_running Scenario.silent Scenario.night).
  - intros n argv. exists 1%N, 0, (Some "").
    split; [ reflexivity | now apply N.leb_le ].
  - cbn. lia.
Defined.

(** X16.  In such an environment every cycle pauses at least once, outside the
    window and, when the table is not empty, inside it: the loop does not
    spin. *)
Theorem cycle_pauses (env : oracle) (self : caster) (w : world) :
  responsive env ->
  0 < max_retries self ->
  device_map self <> [] \/
  in_window (start_time self) (end_time self) (time_of_clock (clock w))
  = false ->
  exists w' added,
    cycle env self w = (Ret tt, w') /\
    trace w' = trace w ++ added /\
    1 <= count is_sleep added.
Proof.
  intros Henv Hretries Hcase.
  destruct (cycle_responsive env self w Henv Hretries)
    as (w' & added & Hcycle & Htr & Hpause).
  exists w', added. auto.
Qed.

Lemma cycle_pauses_witness :
  exists w' added,
    cycle Scenario.silent Scenario.night (Scenario.at_clock 12 0)
    = (Ret tt, w') /\
    trace w' = trace (Scenario.at_clock 12 0) ++ added /\
    1 <= count is_sleep added.
Proof.
  apply (cycle_pauses Scenario.silent Scenario.night (Scenario.at_clock 12 0)).
  - intros n argv. exists 1%N, 0, (Some "").
    split; [ reflexivity | now apply N.leb_le ].
  - cbn. lia.
  - left. discriminate.
Defined.

(** X17.  Inside the window with an empty table a cycle does nothing: it
    returns without starting a process, adding a record or pausing. *)
Theorem empty_table_cycle_is_idle (env : oracle) (self : caster) (w : world) :
  device_map self = [] ->
  in_window (start_time self) (end_time self) (time_of_clock (clock w))
  = true ->
  fst (cycle env self w) = Ret tt /\
  trace (snd (cycle env self w)) = trace w /\
  spawned (snd (cycle env self w)) = spawned w.
Proof.
  intros Hempty Hin. unfold cycle, datetime_now_time, bind.
  rewrite Hin, Hempty. repeat split.
Qed.

Lemma empty_table_cycle_is_idle_witness :
  trace (snd (cycle Scenario.silent
                (mkCaster [] 60 (mkTime 22 0 0 0) (mkTime 6 0 0 0) 5 30)
                (Scenario.at_clock 23 0)))
  = trace (Scenario.at_clock 23 0).
Proof.
  apply (empty_table_cycle_is_idle Scenario.silent
           (mkCaster [] 60 (mkTime 22 0 0 0) (mkTime 6 0 0 0) 5 30)
           (Scenario.at_clock 23 0)); reflexivity.
Defined.



(* ================================================================== *)
(** * What the loop never does                                          *)
(* ================================================================== *)

Ltac only_allowed :=
  intros [= <- <-]; eexists;
  (split; [ cbn; rewrite <- ?app_assoc; cbn; reflexivity | ]);
  reflexivity.

Lemma outside_device_allowed (env : oracle) (self : caster)
    (ha_cast_active : bool) (item : string * device_info)
    (w w' : world) (r : outcome bool) :
  outside_device env self ha_cast_active item w = (r, w') ->
  exists added,
    trace w' = trace w ++ added /\ forallb status_or_stop added = true.
Proof.
  destruct item as [device_name info].
  unfold outside_device, check_dashboard_state, getitem, bind.
  destruct (dict_get device_name (device_map self)) as [info'|].
  2:{ intros [= <- <-]. exists []. now rewrite app_nil_r. }
  cbn [ret]. rewrite check_status_cases. cbn zeta.
  assert (Hstop :
    forall (state : pyval) (w1 : world) (logs : list event),
      trace w1 = trace w ++ Spawn (catt device_name ["status"]) :: logs ->
      forallb status_or_stop logs = true ->
      (if truthy state
       then
         (log INFO ("HA Dashboard is currently being cast on "
                      +++ device_name +++ ". Stopping...");;
          stopped <- try_except
            (process <- create_subprocess_exec env
                          (catt device_name ["stop"]);;
             process_wait process;;
             ret true)
            (fun e =>
               if isinstance e CalledProcessError then
                 Some (log ERROR ("Error stopping dashboard on "
                                    +++ device_name +++ ": "
                                    +++ exn_name e);;
                       ret false)
               else None);;
          if stopped then asyncio_sleep (cast_delay self);; ret true
          else ret ha_cast_active)
       else
         (log INFO ("HA Dashboard is NOT currently being cast on "
                      +++ device_name +++ ". Skipping...");;
          ret ha_cast_active)) w1 = (r, w') ->
      exists added,
        trace w' = trace w ++ added /\ forallb status_or_stop added = true).
  { intros state w1 logs Htr Hlogs.
    destruct (truthy state).
    - unfold log, emit, try_except, bind, create_subprocess_exec.
      cbn [record_event clock spawned trace].
      destruct (env (spawned w1) (catt device_name ["stop"]))
        as [e|[dur rc out|]];
        [ destruct e | | ];
        cbn; intros [= <- <-]; eexists;
        (split; [ cbn; rewrite Htr, <- ?app_assoc; cbn; reflexivity | ]);
        cbn; rewrite forallb_app, Hlogs; reflexivity.
    - cbn. intros [= <- <-]. eexists.
      split; [ cbn; rewrite Htr, <- ?app_assoc; cbn; reflexivity | ].
      cbn. rewrite forallb_app, Hlogs. reflexivity. }
  destruct (env (spawned w) (catt device_name ["status"]))
    as [e|[dur rc out|]].
  - destruct (isinstance e CalledProcessError);
      [ | destruct (isinstance e TimeoutExpired);
          [ | destruct (isinstance e ValueError) ] ];
      try only_allowed;
      unfold bind in Hstop; eapply Hstop;
      cbn; rewrite <- ?app_assoc; reflexivity.
  - destruct (10 <? dur)%N; [ only_allowed | ].
    destruct out; unfold bind in Hstop; eapply Hstop;
      cbn; rewrite <- ?app_assoc; reflexivity.
  - only_allowed.
Qed.

Lemma outside_sweep_allowed (env : oracle) (self : caster)
    (items : list (string * device_info)) :
  forall (ha_cast_active : bool) (w w' : world) (r : outcome bool),
    outside_sweep env self items ha_cast_active w = (r, w') ->
    exists added,
      trace w' = trace w ++ added /\ forallb status_or_stop added = true.
Proof.
  induction items as [|item rest IH]; intros flag w w' r;
    cbn [outside_sweep].
  - intros [= <- <-]. exists []. now rewrite app_nil_r.
  - unfold bind.
    destruct (outside_device env self flag item w) as [[flag1|e|] w1]
      eqn:Hdev;
      apply outside_device_allowed in Hdev as (a1 & Ht1 & Ha1).
    + intros Hrest. apply IH in Hrest as (a2 & Ht2 & Ha2).
      exists (a1 ++ a2). rewrite Ht2, Ht1, <- app_assoc, forallb_app, Ha1, Ha2.
      auto.
    + intros [= <- <-]. eauto.
    + intros [= <- <-]. eauto.
Qed.

(** X19.  Outside the window a cycle starts no process but status queries and
    stop commands, however it ends: it never casts and never sets the
    volume. *)
Theorem outside_never_casts (env : oracle) (self : caster) (w w' : world)
    (r : outcome unit) :
  in_window (start_time self) (end_time self) (time_of_clock (clock w))
  = false ->
  cycle env self w = (r, w') ->
  exists added,
    trace w' = trace w ++ added /\ forallb status_or_stop added = true.
Proof.
  intros Hout. unfold cycle, datetime_now_time, bind. rewrite Hout.
  unfold outside_window, bind, log, emit.
  set (w0 := record_event _ w).
  destruct (outside_sweep env self (device_map self) false w0)
    as [[active|e|] w1] eqn:Hsweep;
    apply outside_sweep_allowed in Hsweep as (a1 & Ht1 & Ha1);
    subst w0; cbn [trace record_event] in Ht1.
  - destruct active; cbn; intros [= <- <-]; eexists;
      (split; [ cbn; rewrite Ht1, <- ?app_assoc; cbn; reflexivity | ]);
      cbn; rewrite ?forallb_app, Ha1; reflexivity.
  - intros [= <- <-]. eexists.
    split; [ rewrite Ht1, <- ?app_assoc; cbn; reflexivity | ].
    cbn. exact Ha1.
  - intros [= <- <-]. eexists.
    split; [ rewrite Ht1, <- ?app_assoc; cbn; reflexivity | ].
    cbn. exact Ha1.
Qed.

Lemma outside_never_casts_witness :
  exists added,
    trace (snd (cycle Scenario.stop_hangs Scenario.night
                  (Scenario.at_clock 12 0)))
    = trace (Scenario.at_clock 12 0) ++ added /\
    forallb status_or_stop added = true.
Proof.
  apply (outside_never_casts Scenario.stop_hangs Scenario.night
           (Scenario.at_clock 12 0) _ _ eq_refl eq_refl).
Defined.

(* ================================================================== *)
(** * Return codes                                                      *)
(* ================================================================== *)

Section ReturnCodes.

Variables env1 env2 : oracle.
Hypothesis Hsame : forall n argv, same_but_returncode (env1 n argv) (env2 n argv).

Ltac relate n argv :=
  let H := fresh "H" in
  pose proof (Hsame n argv) as H;
  destruct (env1 n argv) as [?e|[?dur ?rc ?out|]],
           (env2 n argv) as [?e|[?dur ?rc ?out|]];
  cbn [same_but_returncode] in H; try contradiction;
  [ subst | destruct H; subst | clear H ].

Lemma check_status_rc (device_name state : string) (w : world) :
  check_status env1 device_name state w = check_status env2 device_name state w.
Proof.
  rewrite !check_status_cases. cbn zeta.
  relate (spawned w) (catt device_name ["status"]); reflexivity.
Qed.

Lemma check_both_states_rc (self : caster) (device_name : string)
    (w : world) :
  check_both_states env1 self device_name w
  = check_both_states env2 self device_name w.
Proof.
  unfold check_both_states, getitem, bind.
  destruct (dict_get device_name (device_map self)); [ | reflexivity ].
  cbn [ret]. now rewrite check_status_rc.
Qed.

Lemma cast_dashboard_rc (device_name url : string) (w : world) :
  cast_dashboard env1 device_name url w = cast_dashboard env2 device_name url w.
Proof.
  unfold cast_dashboard, try_except, bind, log, emit, create_subprocess_exec.
  cbn [record_event clock spawned trace].
  relate (spawned w) (catt device_name ["stop"]); try reflexivity.
  rewrite !wait_for_wait. destruct (10 <? dur0)%N; [ reflexivity | ].
  cbn [tick clock spawned trace].
  relate (S (spawned w)) (catt device_name ["volume"; "0"]); try reflexivity.
  rewrite !wait_for_wait. destruct (10 <? dur1)%N; [ reflexivity | ].
  cbn [tick clock spawned trace].
  relate (S (S (spawned w))) (catt device_name ["cast_site"; url]);
    try reflexivity.
  rewrite !wait_for_wait. destruct (10 <? dur2)%N; [ reflexivity | ].
  cbn [tick clock spawned trace].
  relate (S (S (S (spawned w)))) (catt device_name ["volume"; "50"]);
    try reflexivity.
  rewrite !wait_for_wait. destruct (10 <? dur3)%N; reflexivity.
Qed.

Lemma retry_loop_rc (self : caster) (device_name : string)
    (info : device_info) (remaining : nat) :
  forall retry_count w,
    retry_loop env1 self device_name info remaining retry_count w
    = retry_loop env2 self device_name info remaining retry_count w.
Proof.
  induction remaining as [|remaining IH]; intros retry_count w;
    [ reflexivity | ].
  cbn [retry_loop]. unfold bind. rewrite check_both_states_rc.
  destruct (check_both_states env2 self device_name w) as [[first|e|] w1];
    try reflexivity.
  destruct (is_None first).
  - destruct (log _ _ w1) as [[[]|e|] w2]; try reflexivity.
    destruct (asyncio_sleep _ w2) as [[[]|e|] w3]; try reflexivity.
    apply IH.
  - rewrite check_both_states_rc.
    destruct (check_both_states env2 self device_name w1)
      as [[second|e|] w2]; try reflexivity.
    destruct (truthy second); [ reflexivity | ].
    destruct (log _ _ w2) as [[[]|e|] w3]; try reflexivity.
    now rewrite cast_dashboard_rc.
Qed.

Lemma inside_sweep_rc (self : caster) (items : list (string * device_info)) :
  forall w,
    for_each (inside_device env1 self) items w
    = for_each (inside_device env2 self) items w.
Proof.
  induction items as [|[device_name info] rest IH]; intros w;
    [ reflexivity | ].
  cbn [for_each]. unfold bind, inside_device, bind.
  rewrite retry_loop_rc.
  destruct (retry_loop env2 self device_name info _ _ w)
    as [[broke|e|] w1]; try reflexivity.
  destruct broke.
  - destruct (asyncio_sleep _ w1) as [[[]|e|] w2]; try reflexivity. apply IH.
  - destruct (log _ _ w1) as [[[]|e|] w2]; try reflexivity. apply IH.
Qed.

Lemma outside_device_rc (self : caster) (ha_cast_active : bool)
    (item : string * device_info) (w : world) :
  outside_device env1 self ha_cast_active item w
  = outside_device env2 self ha_cast_active item w.
Proof.
  destruct item as [device_name info].
  unfold outside_device, check_dashboard_state, getitem, bind.
  destruct (dict_get device_name (device_map self)); [ | reflexivity ].
  cbn [ret]. rewrite check_status_rc.
  destruct (check_status env2 device_name _ w) as [[state|e|] w1];
    try reflexivity.
  destruct (truthy state); [ | reflexivity ].
  unfold log, emit, try_except, bind, create_subprocess_exec.
  cbn [record_event clock spawned trace].
  relate (spawned w1) (catt device_name ["stop"]); reflexivity.
Qed.

Lemma outside_sweep_rc (self : caster) (items : list (string * device_info)) :
  forall ha_cast_active w,
    outside_sweep env1 self items ha_cast_active w
    = outside_sweep env2 self items ha_cast_active w.
Proof.
  induction items as [|item rest IH]; intros flag w; [ reflexivity | ].
  cbn [outside_sweep]. unfold bind. rewrite outside_device_rc.
  destruct (outside_device env2 self flag item w) as [[active|e|] w1];
    try reflexivity.
  apply IH.
Qed.

Lemma cycle_rc (self : caster) (w : world) :
  cycle env1 self w = cycle env2 self w.
Proof.
  unfold cycle, datetime_now_time, bind.
  destruct (in_window _ _ _); [ apply inside_sweep_rc | ].
  unfold outside_window, bind.
  destruct (log _ _ w) as [[[]|e|] w0]; try reflexivity.
  now rewrite outside_sweep_rc.
Qed.

Lemma start_cycles_rc (self : caster) (n : nat) :
  forall w, start_cycles env1 self n w = start_cycles env2 self n w.
Proof.
  induction n as [|n IH]; intros w; [ reflexivity | ].
  cbn [start_cycles]. unfold bind. rewrite cycle_rc.
  destruct (cycle env2 self w) as [[[]|e|] w1]; try reflexivity.
  apply IH.
Qed.

End ReturnCodes.

(** X20.  The program never looks at a return code: in two environments whose
    processes differ at most in their return codes, the loop does the
    same, cycle after cycle, in outcome, clock and trace. *)
Theorem return_codes_ignored (env1 env2 : oracle) (self : caster) :
  (forall n argv, same_but_returncode (env1 n argv) (env2 n argv)) ->
  forall n w, start_cycles env1 self n w = start_cycles env2 self n w.
Proof. intros Hsame n w. now apply start_cycles_rc. Qed.

Lemma return_codes_ignored_witness :
  start_cycles Scenario.cast_fails Scenario.night 2 (Scenario.at_clock 23 0)
  = start_cycles Scenario.idle Scenario.night 2 (Scenario.at_clock 23 0).
Proof.
  apply (return_codes_ignored Scenario.cast_fails Scenario.idle
           Scenario.night).
  intros n argv. unfold Scenario.cast_fails, Scenario.idle, Scenario.succeeds.
  destruct (Scenario.is_status argv); [ now split | ].
  destruct (words_eqb argv _); now split.
Defined.

(* ================================================================== *)
(** * The decision inside the window                                    *)
(* ================================================================== *)

(** X21.  Inside the window, when every process exits in time, the evaluation
    of a device decides on the second of its two status queries alone:
    it starts the cast sequence exactly when the output of that query has
    neither the state token nor [PLAYING] in it, is empty or does not
    decode; the output of the first query plays no part. *)
Theorem inside_decides_on_second_query (env : oracle) (self : caster)
    (device_name : string) (info info' : device_info) (w : world)
    (dur : N) (rc : nat) (out : option string) :
  responsive env ->
  0 < max_retries self ->
  dict_get device_name (device_map self) = Some info' ->
  env (S (spawned w)) (catt device_name ["status"])
  = Started (Exits dur rc out) ->
  exists w' added,
    inside_device env self (device_name, info) w = (Ret tt, w') /\
    trace w' = trace w ++ added /\
    count is_stop added
    = (if reports_playing (dashboard_state_name info') out then 0 else 1) /\
    filter is_spawn added
    = Spawn (catt device_name ["status"])
      :: Spawn (catt device_name ["status"])
      :: (if reports_playing (dashboard_state_name info') out then []
          else map Spawn (cast_commands device_name (dashboard_url info))).
Proof.
  intros Henv Hretries Hget Hsecond. unfold inside_device, bind.
  destruct (max_retries self) as [|remaining]; [ lia | ].
  cbn [retry_loop]. unfold bind.
  assert (Hfirst : exists b w1 logs,
             check_both_states env self device_name w
             = (Ret (PyBool b), w1) /\
             spawned w1 = S (spawned w) /\
             trace w1 = trace w ++ Spawn (catt device_name ["status"]) :: logs /\
             filter is_spawn logs = [] /\ count is_stop logs = 0).
  { unfold check_both_states, getitem, bind. rewrite Hget. cbn [ret].
    rewrite check_status_cases.
    destruct (Henv (spawned w) (catt device_name ["status"]))
      as (d0 & r0 & o0 & -> & Hd0).
    cbn zeta. apply N.ltb_ge in Hd0. rewrite Hd0.
    destruct o0 as [text|];
      [ cbn [is_None truthy orb]; destruct (String.eqb text "") | ];
      cbn; do 3 eexists; (split; [ reflexivity | ]); cbn;
      (split; [ reflexivity | ]); rewrite <- ?app_assoc;
      (split; [ cbn; reflexivity | ]); split; reflexivity. }
  destruct Hfirst as (b1 & w1 & logs1 & -> & Hsp1 & Ht1 & Hf1 & Hs1).
  cbn [is_None].
  unfold check_both_states, getitem, bind. rewrite Hget. cbn [ret].
  rewrite check_status_cases, Hsp1, Hsecond. cbn zeta.
  destruct (Henv (S (spawned w)) (catt device_name ["status"]))
    as (d' & r' & o' & Hsecond' & Hdur).
  rewrite Hsecond in Hsecond'. injection Hsecond' as <- _ <-.
  apply N.ltb_ge in Hdur. rewrite Hdur.
  assert (Hcast : forall w2 : world,
             exists w3,
               cast_dashboard env device_name (dashboard_url info) w2
               = (Ret tt, w3) /\
               trace w3 = trace w2 ++
                 Log INFO ("Casting dashboard to " +++ device_name)
                 :: map Spawn
                      (cast_commands device_name (dashboard_url info))).
  { intros w2.
    destruct (cast_dashboard_commands env device_name (dashboard_url info)
                w2 Henv) as (w3 & Hc & _ & Ht3).
    exists w3. split; [ exact Hc | exact Ht3 ]. }
  destruct out as [text|]; cbn [reports_playing is_None truthy orb].
  - destruct (String.eqb text "") eqn:Hempty; cbn [negb andb].
    + unfold log, emit.
      cbn [ret record_event truthy negb orb andb is_None]; cbv beta.
      match goal with
      | |- context [cast_dashboard env ?d ?u ?w0] =>
          destruct (Hcast w0) as (w3 & -> & Ht3)
      end.
      cbn in Ht3 |- *. eexists. eexists (([_] ++ logs1) ++ _).
      split; [ reflexivity | ].
      cbn [trace tick record_event after_spawn]. rewrite Ht3, Ht1, <- !app_assoc.
      split; [ cbn; reflexivity | ].
      rewrite !count_app, !filter_app, Hf1, Hs1. split; reflexivity.
    + unfold log, emit.
      cbn [ret record_event truthy negb orb andb is_None]; cbv beta.
      destruct (str_in (dashboard_state_name info') text
                || str_in "PLAYING" text) eqn:Hplaying; cbn [truthy].
      * cbn. eexists. eexists (([_] ++ logs1) ++ _).
        split; [ reflexivity | ].
        cbn [trace tick record_event after_spawn]. rewrite Ht1, <- !app_assoc.
        split; [ cbn; reflexivity | ].
        rewrite !count_app, !filter_app, Hf1, Hs1. split; reflexivity.
      * match goal with
        | |- context [cast_dashboard env ?d ?u ?w0] =>
            destruct (Hcast w0) as (w3 & -> & Ht3)
        end.
        cbn in Ht3 |- *. eexists. eexists (([_] ++ logs1) ++ _).
      split; [ reflexivity | ].
        cbn [trace tick record_event after_spawn]. rewrite Ht3, Ht1, <- !app_assoc.
        split; [ cbn; reflexivity | ].
        rewrite !count_app, !filter_app, Hf1, Hs1. split; reflexivity.
  - unfold log, emit.
      cbn [ret record_event truthy negb orb andb is_None]; cbv beta.
    match goal with
    | |- context [cast_dashboard env ?d ?u ?w0] =>
        destruct (Hcast w0) as (w3 & -> & Ht3)
    end.
    cbn in Ht3 |- *. eexists. eexists (([_] ++ logs1) ++ _).
      split; [ reflexivity | ].
    cbn [trace tick record_event after_spawn]. rewrite Ht3, Ht1, <- !app_assoc.
    split; [ cbn; reflexivity | ].
    rewrite !count_app, !filter_app, Hf1, Hs1. split; reflexivity.
Qed.

Lemma inside_decides_on_second_query_witness :
  exists w' added,
    inside_device Scenario.status_fails_once Scenario.night
      ("tv", Scenario.tv) (Scenario.at_clock 23 0)
    = (Ret tt, w') /\
    trace w' = trace (Scenario.at_clock 23 0) ++ added /\
    count is_stop added = 0 /\
    filter is_spawn added
    = [Spawn (catt "tv" ["status"]); Spawn (catt "tv" ["status"])].
Proof.
  apply (inside_decides_on_second_query Scenario.status_fails_once
           Scenario.night "tv" Scenario.tv Scenario.tv
           (Scenario.at_clock 23 0) 1%N 0 (Some "State: PLAYING")).
  - intros n argv. unfold Scenario.status_fails_once, Scenario.succeeds.
    destruct (Scenario.is_status argv); [ destruct (n =? 0) | ];
      do 3 eexists; (split; [ reflexivity | now apply N.leb_le ]).
  - cbn. lia.
  - reflexivity.
  - reflexivity.
Defined.
